(** * Verification of the platformer physics engine

    A shallow embedding of [app/game_service.py] ([CollisionBox] and
    [GamePhysics.update_player_physics]), of the records of
    [app/models.py] that it reads and writes, and of the win check of
    [MarioGame.game_loop] in [app/mario_game.py], followed by the
    properties of the specification, each settled against that embedding.

    State.  [update_player_physics] assigns to the attributes of the
    session it is given and returns that same object; the embedding is
    the function from the state of the session at the call to its state
    at the return, and the local variables of the method are threaded
    through its steps in the record [GamePhysics.locals].

    Numbers.  Positions, velocities and the tuning constants are Python
    [decimal.Decimal] values, used under the default context
    (28 significant digits, ROUND_HALF_EVEN).  Module [Decimal] models the
    finite ones as a signed coefficient and an exponent, with the context
    rounding written out.  Left out: the sign of a zero, NaN and infinity,
    and the exponent limits Emin/Emax = -999999/999999 (the
    Overflow trap and subnormal rounding).  Scores, lives and level
    bounds are Python ints, here [Z]. *)

From Stdlib Require Import ZArith Lia Bool List String.
From stdpp Require Import gmap strings list.

Local Open Scope Z_scope.

(* ===================================================================== *)
(** ** Python's [decimal.Decimal] under the default context              *)
(* ===================================================================== *)

Module Decimal.

(** The value of [mk c e] is [c * 10^e]. *)
Record t : Set := mk { coef : Z; dexp : Z }.

(** [getcontext().prec] *)
Definition prec : Z := 28.

Fixpoint digits_fuel (fuel : nat) (n : Z) : Z :=
  match fuel with
  | O => 1
  | S fuel' => if n <? 10 then 1 else 1 + digits_fuel fuel' (n / 10)
  end.

(** [len(self._int)]: the number of decimal digits of [|n|], 1 for 0.
    A number below [2^k] has at most [k] digits, which bounds the loop. *)
Definition ndigits (n : Z) : Z :=
  digits_fuel (Z.to_nat (Z.log2 (Z.abs n))) (Z.abs n).

(** ROUND_HALF_EVEN on a quotient [q] with remainder [r] out of [2*half]. *)
Definition round_half_even (q r half : Z) : Z :=
  if (half <? r) || ((r =? half) && Z.odd q) then q + 1 else q.

(** [Decimal._fix]: round to the context precision. *)
Definition fix_prec (d : t) : t :=
  let a := Z.abs (coef d) in
  let k := ndigits a - prec in
  if k <=? 0 then d
  else
    let p := 10 ^ k in
    let q := round_half_even (a / p) (a mod p) (5 * 10 ^ (k - 1)) in
    if q =? 10 ^ prec
    then mk (Z.sgn (coef d) * 10 ^ (prec - 1)) (dexp d + k + 1)
    else mk (Z.sgn (coef d) * q) (dexp d + k).

(** Coefficient of [d] once written with the (smaller) exponent [e]. *)
Definition scaled (e : Z) (d : t) : Z := coef d * 10 ^ (dexp d - e).

Definition add (a b : t) : t :=
  let e := Z.min (dexp a) (dexp b) in
  fix_prec (mk (scaled e a + scaled e b) e).

(** [copy_negate]: exact. *)
Definition copy_negate (a : t) : t := mk (- coef a) (dexp a).

(** [a - b] is [a.__add__(b.copy_negate())]. *)
Definition sub (a b : t) : t := add a (copy_negate b).

Definition mul (a b : t) : t :=
  fix_prec (mk (coef a * coef b) (dexp a + dexp b)).

(** Unary minus and [abs] round to the context precision. *)
Definition neg (a : t) : t := fix_prec (copy_negate a).
Definition abs (a : t) : t := fix_prec (mk (Z.abs (coef a)) (dexp a)).

(** Comparisons are exact. *)
Definition cmp (a b : t) : comparison :=
  let e := Z.min (dexp a) (dexp b) in
  scaled e a ?= scaled e b.

Definition ltb (a b : t) : bool :=
  match cmp a b with Lt => true | _ => false end.
Definition gtb (a b : t) : bool := ltb b a.
Definition leb (a b : t) : bool := negb (ltb b a).
Definition eqb (a b : t) : bool :=
  match cmp a b with Eq => true | _ => false end.

(** Python's [max(a, b)] and [min(a, b)] keep the first argument unless
    the second is strictly larger (smaller). *)
Definition max (a b : t) : t := if gtb b a then b else a.
Definition min (a b : t) : t := if ltb b a then b else a.

(** [Decimal(n)] for an int [n] (exact). *)
Definition of_Z (n : Z) : t := mk n 0.

(** The comparisons as propositions; [eqv] is Python's [==], equality of
    values ([Decimal("8.0") == Decimal("8.00")]). *)
Definition lt (a b : t) : Prop := ltb a b = true.
Definition gt (a b : t) : Prop := gtb a b = true.
Definition le (a b : t) : Prop := leb a b = true.
Definition eqv (a b : t) : Prop := cmp a b = Eq.

End Decimal.

Abbreviation decimal := Decimal.t.

Declare Scope dec_scope.
Delimit Scope dec_scope with dec.
Bind Scope dec_scope with Decimal.t.
Infix "+" := Decimal.add : dec_scope.
Infix "-" := Decimal.sub : dec_scope.
Infix "*" := Decimal.mul : dec_scope.
Notation "- x" := (Decimal.neg x) : dec_scope.
Infix "<?" := Decimal.ltb : dec_scope.
Infix ">?" := Decimal.gtb : dec_scope.
Infix "<" := Decimal.lt : dec_scope.
Infix ">" := Decimal.gt : dec_scope.
Infix "<=" := Decimal.le : dec_scope.
Infix "==" := Decimal.eqv (at level 70, no associativity) : dec_scope.

(** Decimal literals: [dec c e] is [Decimal("cEe")]. *)
Abbreviation dec := Decimal.mk.

(* ===================================================================== *)
(** ** The records of [app/models.py]                                     *)
(* ===================================================================== *)

Inductive GameObjectType : Set := PLATFORM | COIN | ENEMY | POWER_UP | FLAG.

Inductive PlayerState : Set := IDLE | RUNNING | JUMPING | FALLING | DEAD.

Module GameLevel.
Record t : Set := mk {
  id : Z;
  level_number : Z;
  width : Z;
  height : Z;
  gravity : decimal;
  player_spawn_x : decimal;
  player_spawn_y : decimal;
  time_limit : Z
}.
End GameLevel.

(** Objects come from [get_level_objects], so [id] is the primary key
    of a stored row. *)
Module GameObject.
Record t : Set := mk {
  id : Z;
  level_id : Z;
  object_type : GameObjectType;
  x_position : decimal;
  y_position : decimal;
  width : decimal;
  height : decimal;
  is_solid : bool;
  is_collectible : bool;
  points_value : Z
}.
End GameObject.

Module GameConfig.
Record t : Set := mk {
  player_speed : decimal;
  jump_strength : decimal;
  max_velocity_x : decimal;
  max_velocity_y : decimal;
  friction : decimal;
  air_resistance : decimal;
  coin_value : Z;
  extra_life_score : Z
}.

(** The field defaults of the model class. *)
Definition default : t :=
  mk (dec 50 (-1)) (dec 150 (-1)) (dec 80 (-1)) (dec 200 (-1))
     (dec 8 (-1)) (dec 95 (-2)) 100 10000.
End GameConfig.

(** [level] is the relationship attribute [session.level]; the two
    timestamps of the class are never read or written by the engine and
    are left out. *)
Module GameSession.
Record t : Set := mk {
  id : Z;
  player_id : Z;
  level_id : Z;
  current_score : Z;
  coins_collected : Z;
  lives_remaining : Z;
  time_remaining : Z;
  player_x : decimal;
  player_y : decimal;
  player_velocity_x : decimal;
  player_velocity_y : decimal;
  player_state : PlayerState;
  is_facing_right : bool;
  is_on_ground : bool;
  is_completed : bool;
  is_game_over : bool;
  collected_objects : list Z;
  level : GameLevel.t
}.

(** Attribute assignment [session.f = v], one setter per assigned field
    ([is_completed] is assigned by the game loop only). *)
Definition set_current_score (v : Z) (s : t) : t :=
  mk (id s) (player_id s) (level_id s) v (coins_collected s)
    (lives_remaining s) (time_remaining s) (player_x s) (player_y s)
    (player_velocity_x s) (player_velocity_y s) (player_state s)
    (is_facing_right s) (is_on_ground s) (is_completed s) (is_game_over s)
    (collected_objects s) (level s).
Definition set_coins_collected (v : Z) (s : t) : t :=
  mk (id s) (player_id s) (level_id s) (current_score s) v (lives_remaining
    s) (time_remaining s) (player_x s) (player_y s) (player_velocity_x s)
    (player_velocity_y s) (player_state s) (is_facing_right s) (is_on_ground
    s) (is_completed s) (is_game_over s) (collected_objects s) (level s).
Definition set_lives_remaining (v : Z) (s : t) : t :=
  mk (id s) (player_id s) (level_id s) (current_score s) (coins_collected s)
    v (time_remaining s) (player_x s) (player_y s) (player_velocity_x s)
    (player_velocity_y s) (player_state s) (is_facing_right s) (is_on_ground
    s) (is_completed s) (is_game_over s) (collected_objects s) (level s).
Definition set_player_x (v : decimal) (s : t) : t :=
  mk (id s) (player_id s) (level_id s) (current_score s) (coins_collected s)
    (lives_remaining s) (time_remaining s) v (player_y s) (player_velocity_x
    s) (player_velocity_y s) (player_state s) (is_facing_right s)
    (is_on_ground s) (is_completed s) (is_game_over s) (collected_objects s)
    (level s).
Definition set_player_y (v : decimal) (s : t) : t :=
  mk (id s) (player_id s) (level_id s) (current_score s) (coins_collected s)
    (lives_remaining s) (time_remaining s) (player_x s) v (player_velocity_x
    s) (player_velocity_y s) (player_state s) (is_facing_right s)
    (is_on_ground s) (is_completed s) (is_game_over s) (collected_objects s)
    (level s).
Definition set_player_velocity_x (v : decimal) (s : t) : t :=
  mk (id s) (player_id s) (level_id s) (current_score s) (coins_collected s)
    (lives_remaining s) (time_remaining s) (player_x s) (player_y s) v
    (player_velocity_y s) (player_state s) (is_facing_right s) (is_on_ground
    s) (is_completed s) (is_game_over s) (collected_objects s) (level s).
Definition set_player_velocity_y (v : decimal) (s : t) : t :=
  mk (id s) (player_id s) (level_id s) (current_score s) (coins_collected s)
    (lives_remaining s) (time_remaining s) (player_x s) (player_y s)
    (player_velocity_x s) v (player_state s) (is_facing_right s)
    (is_on_ground s) (is_completed s) (is_game_over s) (collected_objects s)
    (level s).
Definition set_player_state (v : PlayerState) (s : t) : t :=
  mk (id s) (player_id s) (level_id s) (current_score s) (coins_collected s)
    (lives_remaining s) (time_remaining s) (player_x s) (player_y s)
    (player_velocity_x s) (player_velocity_y s) v (is_facing_right s)
    (is_on_ground s) (is_completed s) (is_game_over s) (collected_objects s)
    (level s).
Definition set_is_facing_right (v : bool) (s : t) : t :=
  mk (id s) (player_id s) (level_id s) (current_score s) (coins_collected s)
    (lives_remaining s) (time_remaining s) (player_x s) (player_y s)
    (player_velocity_x s) (player_velocity_y s) (player_state s) v
    (is_on_ground s) (is_completed s) (is_game_over s) (collected_objects s)
    (level s).
Definition set_is_on_ground (v : bool) (s : t) : t :=
  mk (id s) (player_id s) (level_id s) (current_score s) (coins_collected s)
    (lives_remaining s) (time_remaining s) (player_x s) (player_y s)
    (player_velocity_x s) (player_velocity_y s) (player_state s)
    (is_facing_right s) v (is_completed s) (is_game_over s)
    (collected_objects s) (level s).
Definition set_is_completed (v : bool) (s : t) : t :=
  mk (id s) (player_id s) (level_id s) (current_score s) (coins_collected s)
    (lives_remaining s) (time_remaining s) (player_x s) (player_y s)
    (player_velocity_x s) (player_velocity_y s) (player_state s)
    (is_facing_right s) (is_on_ground s) v (is_game_over s)
    (collected_objects s) (level s).
Definition set_is_game_over (v : bool) (s : t) : t :=
  mk (id s) (player_id s) (level_id s) (current_score s) (coins_collected s)
    (lives_remaining s) (time_remaining s) (player_x s) (player_y s)
    (player_velocity_x s) (player_velocity_y s) (player_state s)
    (is_facing_right s) (is_on_ground s) (is_completed s) v
    (collected_objects s) (level s).
Definition set_collected_objects (v : list Z) (s : t) : t :=
  mk (id s) (player_id s) (level_id s) (current_score s) (coins_collected s)
    (lives_remaining s) (time_remaining s) (player_x s) (player_y s)
    (player_velocity_x s) (player_velocity_y s) (player_state s)
    (is_facing_right s) (is_on_ground s) (is_completed s) (is_game_over s) v
    (level s).
End GameSession.

(* ===================================================================== *)
(** ** [app/game_service.py]: collision boxes                             *)
(* ===================================================================== *)

Module CollisionBox.
Record t : Set := mk { x : decimal; y : decimal; width : decimal; height : decimal }.

Definition intersects (self other : t) : bool :=
  (x self <? x other + width other)%dec
  && (x self + width self >? x other)%dec
  && (y self <? y other + height other)%dec
  && (y self + height self >? y other)%dec.

Definition get_overlap (self other : t) : decimal * decimal :=
  let overlap_x :=
    (Decimal.min (x self + width self) (x other + width other)
     - Decimal.max (x self) (x other))%dec in
  let overlap_y :=
    (Decimal.min (y self + height self) (y other + height other)
     - Decimal.max (y self) (y other))%dec in
  (overlap_x, overlap_y).
End CollisionBox.

(* ===================================================================== *)
(** ** [app/game_service.py]: [GamePhysics.update_player_physics]         *)
(* ===================================================================== *)

(** [delta_time] is a float, and the engine uses it only through
    [Decimal(str(delta_time))] and [Decimal(str(delta_time * 10))]; a
    tick takes these two decimals. *)
Record DeltaTime : Set := mkDeltaTime {
  dt_decimal : decimal;
  dt10_decimal : decimal
}.

(** [keys_pressed.get(k, False)] *)
Definition keys_get (keys_pressed : gmap string bool) (k : string) : bool :=
  default false (keys_pressed !! k).

(** [i not in l] on a list of ints *)
Definition not_in (i : Z) (l : list Z) : bool := negb (bool_decide (i ∈ l)).

Module GamePhysics.
Import GameSession.

Definition player_width : decimal := dec 24 0.
Definition player_height : decimal := dec 32 0.
Definition zero : decimal := dec 0 0.
Definition slow : decimal := dec 1 (-1).

Section Engine.
Variable config : GameConfig.t.

(** Lines 360-382: horizontal movement, or friction without input. *)
Definition apply_horizontal_movement
    (move_left move_right : bool) (dt : decimal) (session : t) : t :=
  if move_left then
    let session := set_player_velocity_x
      (Decimal.max
         (player_velocity_x session - GameConfig.player_speed config * dt)%dec
         (- GameConfig.max_velocity_x config)%dec) session in
    set_is_facing_right false session
  else if move_right then
    let session := set_player_velocity_x
      (Decimal.min
         (player_velocity_x session + GameConfig.player_speed config * dt)%dec
         (GameConfig.max_velocity_x config)) session in
    set_is_facing_right true session
  else
    let session :=
      if is_on_ground session
      then set_player_velocity_x
             (player_velocity_x session * GameConfig.friction config)%dec session
      else set_player_velocity_x
             (player_velocity_x session * GameConfig.air_resistance config)%dec session in
    if (Decimal.abs (player_velocity_x session) <? slow)%dec
    then set_player_velocity_x zero session
    else session.

(** Lines 384-387. *)
Definition apply_jumping (jump : bool) (session : t) : t :=
  if jump && is_on_ground session then
    let session := set_player_velocity_y (- GameConfig.jump_strength config)%dec session in
    set_is_on_ground false session
  else session.

(** Lines 389-393. *)
Definition apply_gravity (dt : decimal) (session : t) : t :=
  if negb (is_on_ground session) then
    set_player_velocity_y
      (Decimal.min
         (player_velocity_y session + GameLevel.gravity (level session) * dt)%dec
         (GameConfig.max_velocity_y config)) session
  else session.

End Engine.

(** The local variables that the collision loop and the later steps
    update together with the session. *)
Record locals : Set := mkLocals {
  new_x : decimal;
  new_y : decimal;
  session : GameSession.t;
  collectible_objects : list GameObject.t
}.

(** Line 409: [obj_box]. *)
Definition obj_box (obj : GameObject.t) : CollisionBox.t :=
  CollisionBox.mk (GameObject.x_position obj) (GameObject.y_position obj)
    (GameObject.width obj) (GameObject.height obj).

(** Lines 409-435: the body of [for obj in level_objects]. *)
Definition collide (player_box : CollisionBox.t) (st : locals) (obj : GameObject.t)
    : locals :=
  let obj_box := obj_box obj in
  if CollisionBox.intersects player_box obj_box then
    if GameObject.is_collectible obj
       && not_in (GameObject.id obj) (collected_objects (session st))
    then mkLocals (new_x st) (new_y st) (session st)
           (collectible_objects st ++ [obj])
    else if GameObject.is_solid obj then
      let '(overlap_x, overlap_y) := CollisionBox.get_overlap player_box obj_box in
      if (overlap_x <? overlap_y)%dec then
        let new_x' :=
          if (player_velocity_x (session st) >? zero)%dec
          then (GameObject.x_position obj - player_width)%dec
          else (GameObject.x_position obj + GameObject.width obj)%dec in
        mkLocals new_x' (new_y st)
          (set_player_velocity_x zero (session st)) (collectible_objects st)
      else
        if (player_velocity_y (session st) >? zero)%dec then
          mkLocals (new_x st) (GameObject.y_position obj - player_height)%dec
            (set_is_on_ground true (set_player_velocity_y zero (session st)))
            (collectible_objects st)
        else
          mkLocals (new_x st) (GameObject.y_position obj + GameObject.height obj)%dec
            (set_player_velocity_y zero (session st)) (collectible_objects st)
    else st
  else st.

(** Lines 438-442: the body of [for obj in collectible_objects]. *)
Definition collect (session : t) (obj : GameObject.t) : t :=
  if not_in (GameObject.id obj) (collected_objects session) then
    let session :=
      set_collected_objects (collected_objects session ++ [GameObject.id obj]) session in
    let session := set_coins_collected (coins_collected session + 1) session in
    set_current_score (current_score session + GameObject.points_value obj) session
  else session.

(** Lines 444-454. *)
Definition update_player_state (session : t) : t :=
  if is_on_ground session then
    if (Decimal.abs (player_velocity_x session) >? slow)%dec
    then set_player_state RUNNING session
    else set_player_state IDLE session
  else
    if (player_velocity_y session <? zero)%dec
    then set_player_state JUMPING session
    else set_player_state FALLING session.

(** Lines 355-399: input, velocities and the tentative position. *)
Definition tentative (config : GameConfig.t) (session : t)
    (keys_pressed : gmap string bool) (delta_time : DeltaTime) : locals :=
  let move_left := keys_get keys_pressed "ArrowLeft" || keys_get keys_pressed "a" in
  let move_right := keys_get keys_pressed "ArrowRight" || keys_get keys_pressed "d" in
  let jump := keys_get keys_pressed " " || keys_get keys_pressed "ArrowUp"
              || keys_get keys_pressed "w" in
  let session :=
    apply_horizontal_movement config move_left move_right (dt_decimal delta_time) session in
  let session := apply_jumping config jump session in
  let session := apply_gravity config (dt_decimal delta_time) session in
  let new_x := (player_x session + player_velocity_x session * dt10_decimal delta_time)%dec in
  let new_y := (player_y session + player_velocity_y session * dt10_decimal delta_time)%dec in
  mkLocals new_x new_y session [].

(** Line 402: the player's box, built once from the tentative position. *)
Definition player_box (st : locals) : CollisionBox.t :=
  CollisionBox.mk (new_x st) (new_y st) player_width player_height.

(** Lines 404-406: the locals on entry to the collision loop. *)
Definition loop_entry (st : locals) : locals :=
  mkLocals (new_x st) (new_y st) (set_is_on_ground false (session st)) [].

(** Lines 404-435: the collision loop. *)
Definition check_collisions (level_objects : list GameObject.t) (st : locals) : locals :=
  fold_left (collide (player_box st)) level_objects (loop_entry st).

(** Lines 437-442. *)
Definition handle_collectibles (st : locals) : locals :=
  mkLocals (new_x st) (new_y st)
    (fold_left collect (collectible_objects st) (session st))
    (collectible_objects st).

(** Lines 456-467: falling through the bottom of the level. *)
Definition fall_out (st : locals) : locals :=
  if (new_y st >? Decimal.of_Z (GameLevel.height (level (session st))))%dec then
    let session := set_lives_remaining (lives_remaining (session st) - 1) (session st) in
    if lives_remaining session <=? 0 then
      mkLocals (new_x st) (new_y st) (set_is_game_over true session)
        (collectible_objects st)
    else
      mkLocals (GameLevel.player_spawn_x (level session))
        (GameLevel.player_spawn_y (level session))
        (set_player_velocity_y zero (set_player_velocity_x zero session))
        (collectible_objects st)
  else st.

(** Lines 469-470. *)
Definition clamp_x (level : GameLevel.t) (new_x : decimal) : decimal :=
  Decimal.max zero
    (Decimal.min new_x (Decimal.of_Z (GameLevel.width level) - player_width)%dec).

(** Lines 469-476: clamp, store the position, return the session. *)
Definition commit_position (st : locals) : t :=
  let new_x := clamp_x (level (session st)) (new_x st) in
  set_player_y (new_y st) (set_player_x new_x (session st)).

(** The locals when line 456 is reached. *)
Definition before_fall_out (config : GameConfig.t) (session : t)
    (level_objects : list GameObject.t) (keys_pressed : gmap string bool)
    (delta_time : DeltaTime) : locals :=
  let st := tentative config session keys_pressed delta_time in
  let st := check_collisions level_objects st in
  let st := handle_collectibles st in
  mkLocals (new_x st) (new_y st) (update_player_state (GamePhysics.session st))
    (collectible_objects st).

Definition update_player_physics (config : GameConfig.t) (session : t)
    (level_objects : list GameObject.t) (keys_pressed : gmap string bool)
    (delta_time : DeltaTime) : t :=
  commit_position
    (fall_out (before_fall_out config session level_objects keys_pressed delta_time)).

End GamePhysics.

(* ===================================================================== *)
(** ** The callers: session start and the frame loop                      *)
(* ===================================================================== *)

(** [GameService.start_new_session]: the session that the service
    stores for a level; [session_id] is the key the database assigns, the
    other fields take the defaults of the model class. *)
Definition start_new_session (session_id player_id : Z) (level : GameLevel.t)
    : GameSession.t :=
  GameSession.mk session_id player_id (GameLevel.id level) 0 0 3
    (GameLevel.time_limit level)
    (GameLevel.player_spawn_x level) (GameLevel.player_spawn_y level)
    (dec 0 0) (dec 0 0) IDLE true false false false [] level.

Definition is_coin (obj : GameObject.t) : bool :=
  match GameObject.object_type obj with COIN => true | _ => false end.

(** [MarioGame.game_loop], "Check win condition". *)
Definition check_win_condition (session : GameSession.t)
    (level_objects : list GameObject.t) : GameSession.t :=
  let total_coins := Z.of_nat (length (List.filter is_coin level_objects)) in
  if GameSession.coins_collected session >=? total_coins
  then GameSession.set_is_completed true session
  else session.

(** [n] consecutive frames with the same keys and the same [delta_time]:
    each frame is passed the session returned by the previous one. *)
Fixpoint run_ticks (n : nat) (config : GameConfig.t) (session : GameSession.t)
    (level_objects : list GameObject.t) (keys_pressed : gmap string bool)
    (delta_time : DeltaTime) : GameSession.t :=
  match n with
  | O => session
  | S n' =>
      run_ticks n' config
        (GamePhysics.update_player_physics config session level_objects
           keys_pressed delta_time)
        level_objects keys_pressed delta_time
  end.

(** Frames with changing keys and frame times, over one object list. *)
Definition run_frames (config : GameConfig.t) (level_objects : list GameObject.t)
    (frames : list (gmap string bool * DeltaTime)) (session : GameSession.t)
    : GameSession.t :=
  fold_left
    (fun s fr => GamePhysics.update_player_physics config s level_objects fr.1 fr.2)
    frames session.

(* ===================================================================== *)
(** ** The reference level of [create_default_level] and test data        *)
(* ===================================================================== *)

(** [delta_time = 1.0 / 60.0]: [str(1/60)] is ["0.016666666666666666"] and
    [str(1/60 * 10)] is ["0.16666666666666666"]. *)
Definition dt_60fps : DeltaTime :=
  mkDeltaTime (dec 16666666666666666 (-18)) (dec 16666666666666666 (-17)).

(** World 1-1: 2400 x 600, gravity 0.8, spawn (100, 400). *)
Definition world_1_1 : GameLevel.t :=
  GameLevel.mk 1 1 2400 600 (dec 8 (-1)) (dec 100 0) (dec 400 0) 400.

(** Its main ground: a solid platform at y = 550 over x in [0, 800). *)
Definition main_ground : GameObject.t :=
  GameObject.mk 1 1 PLATFORM (dec 0 0) (dec 550 0) (dec 800 0) (dec 50 0)
    true false 0.

(** Its first coin, at (200, 300). *)
Definition first_coin : GameObject.t :=
  GameObject.mk 7 1 COIN (dec 200 0) (dec 300 0) (dec 24 0) (dec 24 0)
    false true 100.

Definition no_keys : gmap string bool := ∅.

(** A fresh session on World 1-1: at the spawn, at rest, airborne. *)
Definition fresh_session : GameSession.t := start_new_session 1 1 world_1_1.

(** The same session once its game is over. *)
Definition game_over_session : GameSession.t :=
  GameSession.set_is_game_over true fresh_session.

(** The player standing on the main ground (y = 550 - 32) and sliding to
    the right at 10.0. *)
Definition sliding_session : GameSession.t :=
  GameSession.set_is_on_ground true
    (GameSession.set_player_velocity_x (dec 100 (-1))
       (GameSession.set_player_y (dec 518 0) fresh_session)).

(** The player below the bottom of the level (y = 700 > 600), with the
    given number of lives. *)
Definition fallen_session (lives : Z) : GameSession.t :=
  GameSession.set_lives_remaining lives
    (GameSession.set_player_y (dec 700 0) fresh_session).

(** A block that is solid and collectible at once, under the spawn. *)
Definition coin_block : GameObject.t :=
  GameObject.mk 20 1 COIN (dec 100 0) (dec 420 0) (dec 24 0) (dec 24 0)
    true true 100.

(** The player on top of the first coin. *)
Definition at_first_coin : GameSession.t :=
  GameSession.set_player_x (dec 200 0)
    (GameSession.set_player_y (dec 300 0) fresh_session).

(* ===================================================================== *)
(** ** Vocabulary of the specification                                    *)
(* ===================================================================== *)

Module Spec.
Import GameSession GamePhysics.

(** Step 6, second bullet: an intersecting collectible whose id is not
    yet collected is queued. *)
Definition queued (box : CollisionBox.t) (collected : list Z) (obj : GameObject.t)
    : bool :=
  CollisionBox.intersects box (obj_box obj)
  && (GameObject.is_collectible obj && not_in (GameObject.id obj) collected).

(** Step 7: the queued objects that are credited, the first of each id
    that is not collected yet. *)
Fixpoint credited (collected : list Z) (queue : list GameObject.t)
    : list GameObject.t :=
  match queue with
  | [] => []
  | obj :: queue' =>
      if not_in (GameObject.id obj) collected
      then obj :: credited (collected ++ [GameObject.id obj]) queue'
      else credited collected queue'
  end.

Definition sum_points (objs : list GameObject.t) : Z :=
  fold_right (fun obj acc => GameObject.points_value obj + acc) 0 objs.

(** The objects credited by one tick. *)
Definition credited_in_tick (config : GameConfig.t) (session : t)
    (level_objects : list GameObject.t) (keys_pressed : gmap string bool)
    (delta_time : DeltaTime) : list GameObject.t :=
  let box := player_box (tentative config session keys_pressed delta_time) in
  credited (collected_objects session)
    (List.filter (queued box (collected_objects session)) level_objects).

(** Step 6, third bullet, in the words of the specification: what the
    loop body does to the locals [st] for a solid object, giving [st']. *)
Definition resolves_solid (box : CollisionBox.t) (st : locals) (obj : GameObject.t)
    (st' : locals) : Prop :=
  let '(overlap_x, overlap_y) := CollisionBox.get_overlap box (obj_box obj) in
  let vx := player_velocity_x (session st) in
  let vy := player_velocity_y (session st) in
  if (overlap_x <? overlap_y)%dec then
    new_x st' = (if (vx >? zero)%dec
                 then (GameObject.x_position obj - dec 24 0)%dec
                 else (GameObject.x_position obj + GameObject.width obj)%dec)
    /\ session st' = set_player_velocity_x (dec 0 0) (session st)
    /\ new_y st' = new_y st
  else if (vy >? zero)%dec then
    new_y st' = (GameObject.y_position obj - dec 32 0)%dec
    /\ session st' = set_is_on_ground true (set_player_velocity_y (dec 0 0) (session st))
    /\ new_x st' = new_x st
  else
    new_y st' = (GameObject.y_position obj + GameObject.height obj)%dec
    /\ session st' = set_player_velocity_y (dec 0 0) (session st)
    /\ new_x st' = new_x st.

(** A session is terminal once either flag is set. *)
Definition terminal (session : t) : Prop :=
  is_game_over session = true \/ is_completed session = true.

(** The horizontal velocity of a tick once lines 360-382 have run: the
    one that moves the player in this tick. *)
Definition vx_after_input (config : GameConfig.t) (session : t)
    (keys_pressed : gmap string bool) (delta_time : DeltaTime) : decimal :=
  player_velocity_x (GamePhysics.session (tentative config session keys_pressed delta_time)).

(** [is_on_ground] is false in the session and after each of the next
    [n - 1] frames. *)
Fixpoint airborne_for (n : nat) (config : GameConfig.t) (session : t)
    (level_objects : list GameObject.t) (keys_pressed : gmap string bool)
    (delta_time : DeltaTime) : bool :=
  match n with
  | O => true
  | S n' =>
      negb (is_on_ground session)
      && airborne_for n' config
           (update_player_physics config session level_objects keys_pressed delta_time)
           level_objects keys_pressed delta_time
  end.

(** A session with its two terminal flags replaced. *)
Definition with_flags (completed game_over : bool) (session : t) : t :=
  set_is_completed completed (set_is_game_over game_over session).

Definition locals_with_flags (completed game_over : bool) (st : locals) : locals :=
  mkLocals (new_x st) (new_y st) (with_flags completed game_over (session st))
    (collectible_objects st).

(** The fields that no step of the engine assigns. *)
Definition untouched (session : t) : Z * Z * Z * Z * bool * GameLevel.t :=
  (id session, player_id session, level_id session, time_remaining session,
   is_completed session, level session).

(** What the steps other than crediting leave alone: also the lives, the
    game-over flag and the credit counters. *)
Definition kept (s : t) :=
  (untouched s, lives_remaining s, is_game_over s,
   collected_objects s, coins_collected s, current_score s).

(** What crediting leaves alone. *)
Definition kept_by_credit (s : t) := (untouched s, lives_remaining s, is_game_over s).

End Spec.

(* ===================================================================== *)
(** ** [app/mario_game.py]: the frame loop                                *)
(* ===================================================================== *)

(** The attributes of [MarioGame] that the frame loop reads and writes.
    Left out: the canvas element, the clock [last_update] (the frame time
    is an input of a frame here) and the float [camera_x]. *)
Module MarioGame.
Record t : Set := mk {
  current_session : option GameSession.t;
  current_config : option GameConfig.t;
  level_objects : list GameObject.t;
  keys_pressed : gmap string bool;
  game_loop_running : bool
}.

(** [MarioGame.__init__] *)
Definition init : t := mk None None [] ∅ false.

(** [toggle_pause] *)
Definition toggle_pause (self : t) : t :=
  mk (current_session self) (current_config self) (level_objects self)
    (keys_pressed self) (negb (game_loop_running self)).

(** A Python dict is true when it is not empty. *)
Definition truthy (d : gmap string bool) : bool := negb (bool_decide (d = ∅)).

(** [game_loop], one call.  [keys_result] is what the browser returned
    for [getGameKeys()], [None] when awaiting it raised (the
    [except Exception] branch logs and leaves the frame).  Updating the
    camera, the labels and the canvas does not touch the attributes kept
    here. *)
Definition game_loop (self : t) (keys_result : option (gmap string bool))
    (delta_time : DeltaTime) : t :=
  match game_loop_running self, current_session self, current_config self with
  | true, Some session, Some config =>
      match keys_result with
      | None => self
      | Some keys_result =>
          let keys_pressed :=
            if truthy keys_result then keys_result else keys_pressed self in
          let session :=
            GamePhysics.update_player_physics config session (level_objects self)
              keys_pressed delta_time in
          let total_coins := Z.of_nat (length (List.filter is_coin (level_objects self))) in
          let '(session, running) :=
            if GameSession.coins_collected session >=? total_coins
            then (GameSession.set_is_completed true session, false)
            else (session, true) in
          let running := if GameSession.is_game_over session then false else running in
          mk (Some session) (Some config) (level_objects self) keys_pressed running
      end
  | _, _, _ => self
  end.

(** Successive calls of the timer. *)
Definition run_loop (self : t)
    (frames : list (option (gmap string bool) * DeltaTime)) : t :=
  fold_left (fun g fr => game_loop g fr.1 fr.2) frames self.
End MarioGame.

(* ===================================================================== *)
(** ** Further vocabulary                                                 *)
(* ===================================================================== *)

Module Intent.

(** Lines 356-358: the three intents read from the keys. *)
Definition move_left (keys_pressed : gmap string bool) : bool :=
  keys_get keys_pressed "ArrowLeft" || keys_get keys_pressed "a".
Definition move_right (keys_pressed : gmap string bool) : bool :=
  keys_get keys_pressed "ArrowRight" || keys_get keys_pressed "d".
Definition jump (keys_pressed : gmap string bool) : bool :=
  keys_get keys_pressed " " || keys_get keys_pressed "ArrowUp"
  || keys_get keys_pressed "w".

End Intent.

Module Level.
Import GameSession GamePhysics Spec.

(** An object that the collision loop does something with: it
    intersects the box and is queued or solid. *)
Definition relevant (box : CollisionBox.t) (collected : list Z) (obj : GameObject.t)
    : bool :=
  CollisionBox.intersects box (obj_box obj)
  && ((GameObject.is_collectible obj && not_in (GameObject.id obj) collected)
      || GameObject.is_solid obj).

(** A solid object that the loop resolves: intersecting and not queued. *)
Definition resolved (box : CollisionBox.t) (collected : list Z) (obj : GameObject.t)
    : bool :=
  CollisionBox.intersects box (obj_box obj)
  && negb (GameObject.is_collectible obj && not_in (GameObject.id obj) collected)
  && GameObject.is_solid obj.

(** The vertical velocity of a tick once lines 384-393 have run. *)
Definition vy_after_gravity (config : GameConfig.t) (session : t)
    (keys_pressed : gmap string bool) (delta_time : DeltaTime) : decimal :=
  player_velocity_y (GamePhysics.session (tentative config session keys_pressed delta_time)).

(** Position, velocity, facing and ground contact. *)
Definition motion (session : t) :=
  (player_x session, player_y session, player_velocity_x session,
   player_velocity_y session, is_facing_right session, is_on_ground session).

(** The coins of a level, as the win check counts them. *)
Definition coins_of (level_objects : list GameObject.t) : list GameObject.t :=
  List.filter is_coin level_objects.

(** A level whose collectibles are its coins, with ids that tell the
    objects apart. *)
Definition coin_level (level_objects : list GameObject.t) : Prop :=
  NoDup (GameObject.id <$> level_objects)
  /\ (forall obj, obj ∈ level_objects ->
        GameObject.is_collectible obj = is_coin obj).

(** The invariants of a session that was started fresh. *)
Definition credit_consistent (session : t) : Prop :=
  NoDup (collected_objects session)
  /\ coins_collected session = Z.of_nat (length (collected_objects session)).

End Level.

(** [create_default_level]: the objects of World 1-1 in the order in
    which they are added, with the keys 1 to 14 that a fresh table gives
    them. *)
Definition world_1_1_objects : list GameObject.t :=
  let platform i x y w h :=
    GameObject.mk i 1 PLATFORM (dec x 0) (dec y 0) (dec w 0) (dec h 0) true false 0 in
  let coin i x y :=
    GameObject.mk i 1 COIN (dec x 0) (dec y 0) (dec 24 0) (dec 24 0) false true 100 in
  [ platform 1 0 550 800 50; platform 2 900 550 500 50; platform 3 600 450 200 32;
    platform 4 1000 400 150 32; platform 5 1300 350 200 32; platform 6 1500 550 900 50;
    coin 7 200 300; coin 8 300 250; coin 9 650 400; coin 10 700 400;
    coin 11 1050 350; coin 12 1400 300; coin 13 1800 400; coin 14 2000 350 ].

(* ===================================================================== *)
(** ** Properties of the decimal model                                   *)
(* ===================================================================== *)

Module DecimalTests.
Import Decimal.

Example mul_exact : mul (dec 8 (-1)) (dec 16666666666666666 (-18)) = dec 133333333333333328 (-19).
Proof. reflexivity. Qed.
Example mul_rounds :
mul (dec 1599999999999999936 (-18)) (dec 16666666666666666 (-17))
= dec 2666666666666666453333333333 (-28).
Proof. reflexivity. Qed.
Example mul_rounds_neg :
mul (dec 12345678901234567890123456789 (-9)) (dec (-987654321098765432101) (-20))
= dec (-1219326311370217952250891632) (-7).
Proof. reflexivity. Qed.
Example tie_to_even_down : add (dec 10000000000000000000000000005 0) (dec 0 0) = dec 1000000000000000000000000000 1.
Proof. reflexivity. Qed.
Example tie_to_even_up : add (dec 10000000000000000000000000015 0) (dec 0 0) = dec 1000000000000000000000000002 1.
Proof. reflexivity. Qed.
Example carry_out : add (dec 99999999999999999999999999995 0) (dec 0 0) = dec 1000000000000000000000000000 2.
Proof. reflexivity. Qed.
Example carry_out_neg : add (dec (-99999999999999999999999999995) 0) (dec 0 0) = dec (-1000000000000000000000000000) 2.
Proof. reflexivity. Qed.
Example add_aligns :
add (dec 400 0) (dec 22222222222222220799999999999 (-31)) = dec 4000022222222222222220800000 (-25).
Proof. reflexivity. Qed.
Example add_zero_small_exp : add (dec 0 (-100)) (dec 1 0) = dec 1000000000000000000000000000 (-27).
Proof. reflexivity. Qed.
Example sub_cancels : sub (dec 10 (-1)) (dec 100 (-2)) = dec 0 (-2).
Proof. reflexivity. Qed.
Example sub_rounds_up : sub (dec 10000000000000000000000000030 0) (dec 24 0) = dec 1000000000000000000000000001 1.
Proof. reflexivity. Qed.
Example add_far_apart : add (dec 1 40) (dec (-1) 0) = dec 1000000000000000000000000000 13.
Proof. reflexivity. Qed.
Example add_half : add (dec 1 28) (dec (-5) (-1)) = dec 1000000000000000000000000000 1.
Proof. reflexivity. Qed.
Example add_below_half : add (dec 1 28) (dec (-6) (-1)) = dec 9999999999999999999999999999 0.
Proof. reflexivity. Qed.
Example abs_rounds : abs (dec (-123456789012345678901234567895) 0) = dec 1234567890123456789012345679 2.
Proof. reflexivity. Qed.
Example neg_rounds : neg (dec 123456789012345678901234567885 0) = dec (-1234567890123456789012345679) 2.
Proof. reflexivity. Qed.
Example friction_steps :
mul (dec 100 (-1)) (dec 8 (-1)) = dec 800 (-2)
/\ mul (dec 800 (-2)) (dec 8 (-1)) = dec 6400 (-3)
/\ mul (dec 6400 (-3)) (dec 8 (-1)) = dec 51200 (-4).
Proof. repeat split. Qed.

End DecimalTests.

Module DecimalFacts.
Import Decimal.

Lemma pow10_pos (k : Z) : 0 < 10 ^ k \/ k < 0.
Proof. destruct (Z_lt_le_dec k 0); [right; lia | left; apply Z.pow_pos_nonneg; lia]. Qed.

Lemma digits_fuel_pos (fuel : nat) (n : Z) : 1 <= digits_fuel fuel n.
Proof.
  revert n; induction fuel as [|fuel IH]; intros n; simpl; [lia|].
  destruct (n <? 10); [lia | specialize (IH (n / 10)); lia].
Qed.

(** The digit count never overshoots: [10^(d-1) <= n]. *)
Lemma digits_fuel_lower (fuel : nat) (n : Z) :
  0 < n -> 10 ^ (digits_fuel fuel n - 1) <= n.
Proof.
  revert n; induction fuel as [|fuel IH]; intros n Hn; simpl.
  - change (10 ^ (1 - 1)) with 1. lia.
  - destruct (Z.ltb_spec n 10) as [Hlt|Hge].
    + change (10 ^ (1 - 1)) with 1. lia.
    + pose proof (digits_fuel_pos fuel (n / 10)) as Hpos.
      assert (Hq : 0 < n / 10) by (apply Z.div_str_pos; lia).
      specialize (IH _ Hq).
      replace (1 + digits_fuel fuel (n / 10) - 1)
        with (Z.succ (digits_fuel fuel (n / 10) - 1)) by lia.
      rewrite Z.pow_succ_r by lia.
      pose proof (Z.mul_div_le n 10 ltac:(lia)). lia.
Qed.

(** With fuel [k], numbers below [2^(k+1)] are counted in full. *)
Lemma digits_fuel_upper (fuel : nat) (n : Z) :
  0 <= n < 2 ^ (Z.of_nat fuel + 1) -> n < 10 ^ digits_fuel fuel n.
Proof.
  revert n; induction fuel as [|fuel IH]; intros n Hn; simpl digits_fuel.
  - change (2 ^ (Z.of_nat 0 + 1)) with 2 in Hn. change (10 ^ 1) with 10. lia.
  - destruct (Z.ltb_spec n 10) as [Hlt|Hge]; [change (10 ^ 1) with 10; lia|].
    pose proof (digits_fuel_pos fuel (n / 10)) as Hpos.
    assert (Hq : 0 <= n / 10 < 2 ^ (Z.of_nat fuel + 1)).
    { split; [apply Z.div_pos; lia|].
      apply Z.div_lt_upper_bound; [lia|].
      replace (Z.of_nat (S fuel) + 1) with (Z.succ (Z.of_nat fuel + 1)) in Hn by lia.
      rewrite Z.pow_succ_r in Hn by lia. lia. }
    specialize (IH _ Hq).
    replace (1 + digits_fuel fuel (n / 10)) with (Z.succ (digits_fuel fuel (n / 10))) by lia.
    rewrite Z.pow_succ_r by lia.
    pose proof (Z.div_mod n 10 ltac:(lia)).
    pose proof (Z.mod_pos_bound n 10 ltac:(lia)). lia.
Qed.

(** [ndigits] is the length of the decimal numeral. *)
Lemma ndigits_spec (n : Z) :
  n <> 0 -> 10 ^ (ndigits n - 1) <= Z.abs n < 10 ^ ndigits n.
Proof.
  intros Hn. unfold ndigits. split.
  - apply digits_fuel_lower. lia.
  - apply digits_fuel_upper. split; [lia|].
    rewrite Z2Nat.id by apply Z.log2_nonneg.
    replace (Z.log2 (Z.abs n) + 1) with (Z.succ (Z.log2 (Z.abs n))) by lia.
    apply Z.log2_spec. lia.
Qed.

Lemma ndigits_small (n : Z) : Z.abs n < 10 ^ prec -> ndigits n <= prec.
Proof.
  intros Hlt. destruct (Z.eq_dec n 0) as [->|Hn]; [vm_compute; discriminate|].
  pose proof (ndigits_spec n Hn) as [Hlo _].
  destruct (Z_le_gt_dec (ndigits n) prec) as [|Hgt]; [done|].
  assert (10 ^ prec <= 10 ^ (ndigits n - 1)); [|lia].
  apply Z.pow_le_mono_r; unfold prec in *; lia.
Qed.

(** No rounding below [10^28]. *)
Lemma fix_prec_small (d : t) : Z.abs (coef d) < 10 ^ prec -> fix_prec d = d.
Proof.
  intros Hlt. unfold fix_prec.
  pose proof (ndigits_small (Z.abs (coef d))) as Hd.
  rewrite Z.abs_idemp in Hd. specialize (Hd Hlt).
  destruct (Z.leb_spec (ndigits (Z.abs (coef d)) - prec) 0); [done | lia].
Qed.

(** Rounding keeps the sign. *)
Lemma fix_prec_nonneg (d : t) : 0 <= coef d -> 0 <= coef (fix_prec d).
Proof.
  intros Hd. unfold fix_prec.
  destruct (_ <=? 0); [done|].
  set (k := ndigits (Z.abs (coef d)) - prec).
  assert (Hq : 0 <= Z.abs (coef d) / 10 ^ k).
  { destruct (pow10_pos k) as [Hp|Hk].
    - apply Z.div_pos; lia.
    - rewrite Z.pow_neg_r by lia. rewrite Z.div_0_r. lia. }
  assert (Hr : 0 <= round_half_even (Z.abs (coef d) / 10 ^ k)
                      (Z.abs (coef d) mod 10 ^ k) (5 * 10 ^ (k - 1))).
  { unfold round_half_even. destruct (_ || _); lia. }
  destruct (_ =? 10 ^ prec); simpl.
  - assert (0 < 10 ^ (prec - 1)) by (vm_compute; done).
    apply Z.mul_nonneg_nonneg; lia.
  - apply Z.mul_nonneg_nonneg; lia.
Qed.

Lemma cmp_antisym (a b : t) : cmp b a = CompOpp (cmp a b).
Proof. unfold cmp. rewrite (Z.min_comm (dexp b)). apply Z.compare_antisym. Qed.

Lemma cmp_refl (a : t) : cmp a a = Eq.
Proof. unfold cmp. apply Z.compare_refl. Qed.

Lemma ltb_asym (a b : t) : ltb a b = true -> ltb b a = false.
Proof. unfold ltb. rewrite (cmp_antisym a b). by destruct (cmp a b). Qed.

Lemma eqv_not_ltb (a b : t) : eqv a b -> ltb a b = false /\ ltb b a = false.
Proof. unfold eqv, ltb. rewrite (cmp_antisym a b). by intros ->. Qed.

Lemma eqv_sym (a b : t) : eqv a b -> eqv b a.
Proof. unfold eqv. rewrite (cmp_antisym a b). by intros ->. Qed.

Lemma le_refl (a : t) : le a a.
Proof. unfold le, leb, ltb. by rewrite cmp_refl. Qed.

Lemma lt_le (a b : t) : lt a b -> le a b.
Proof. unfold lt, le, leb. intros H. by rewrite (ltb_asym _ _ H). Qed.

Lemma not_ltb_le (a b : t) : ltb b a = false -> le a b.
Proof. unfold le, leb. by intros ->. Qed.

Lemma eqv_le (a b : t) : eqv a b -> le a b.
Proof. intros H. apply not_ltb_le. by apply eqv_not_ltb. Qed.

(** Against zero only the sign of the coefficient counts. *)
Lemma cmp_zero_l (d : t) : cmp (mk 0 0) d = (0 ?= coef d).
Proof.
  unfold cmp, scaled. cbn [coef dexp]. rewrite Z.mul_0_l.
  assert (Hp : 0 < 10 ^ (dexp d - Z.min 0 (dexp d))) by (apply Z.pow_pos_nonneg; lia).
  destruct (Z.compare_spec 0 (coef d)) as [<-|Hlt|Hgt].
  - by rewrite Z.mul_0_l.
  - apply Z.compare_lt_iff. apply Z.mul_pos_pos; lia.
  - apply Z.compare_gt_iff. apply Z.mul_neg_pos; lia.
Qed.

Lemma le_zero_l (d : t) : le (mk 0 0) d <-> 0 <= coef d.
Proof.
  unfold le, leb, ltb. rewrite (cmp_antisym (mk 0 0) d), cmp_zero_l.
  destruct (Z.compare_spec 0 (coef d)); simpl; split; intros; try done; lia.
Qed.

(** The maximum is an upper bound of its first argument, the minimum a
    lower bound of its second. *)
Lemma max_ge_l (a b : t) : le a (max a b).
Proof.
  unfold max, gtb. destruct (ltb a b) eqn:H; [by apply lt_le | apply le_refl].
Qed.

Lemma min_le_r (a b : t) : le (min a b) b.
Proof.
  unfold min. destruct (ltb b a) eqn:H; [apply le_refl | by apply not_ltb_le].
Qed.

(** Subtracting decimals of exponent 0 is exact below [10^28]. *)
Lemma sub_of_Z_exact (n m : Z) :
  Z.abs (n - m) < 10 ^ prec -> sub (of_Z n) (of_Z m) = of_Z (n - m).
Proof.
  intros H. unfold sub, add, copy_negate, of_Z, scaled. cbn [coef dexp].
  change (10 ^ (0 - Z.min 0 0)) with 1. rewrite !Z.mul_1_r. replace (n + - m) with (n - m) by lia.
  by apply fix_prec_small.
Qed.

End DecimalFacts.

(* ===================================================================== *)
(** ** Frame properties of the steps of a tick                            *)
(* ===================================================================== *)

Module Frame.
Import GameSession GamePhysics Spec.

Lemma fold_left_invariant {A B : Type} (P : A -> Prop) (f : A -> B -> A) :
  (forall a b, P a -> P (f a b)) ->
  forall l a, P a -> P (fold_left f l a).
Proof.
  intros Hstep l. induction l as [|b l IH]; intros a Ha; simpl; [done|].
  apply IH. by apply Hstep.
Qed.

Lemma apply_horizontal_movement_kept config l r dt s :
  kept (apply_horizontal_movement config l r dt s) = kept s.
Proof.
  unfold apply_horizontal_movement.
  destruct l; [done|]. destruct r; [done|].
  destruct (is_on_ground s); cbn; by destruct (_ <? _)%dec.
Qed.

Lemma apply_jumping_kept config j s : kept (apply_jumping config j s) = kept s.
Proof. unfold apply_jumping. by destruct (_ && _). Qed.

Lemma apply_gravity_kept config dt s : kept (apply_gravity config dt s) = kept s.
Proof. unfold apply_gravity. by destruct (negb _). Qed.

Lemma tentative_kept config s keys dt :
  kept (session (tentative config s keys dt)) = kept s.
Proof.
  unfold tentative. cbn [session].
  by rewrite apply_gravity_kept, apply_jumping_kept, apply_horizontal_movement_kept.
Qed.

Lemma collide_kept box st obj : kept (session (collide box st obj)) = kept (session st).
Proof.
  unfold collide.
  destruct (CollisionBox.intersects _ _); [|done].
  destruct (_ && _); [done|].
  destruct (GameObject.is_solid obj); [|done].
  destruct (CollisionBox.get_overlap _ _) as [ox oy].
  destruct (ox <? oy)%dec; [done|].
  by destruct (_ >? _)%dec.
Qed.

Lemma check_collisions_kept objs st :
  kept (session (check_collisions objs st)) = kept (session st).
Proof.
  unfold check_collisions.
  apply (fold_left_invariant (fun st' => kept (session st') = kept (session st))).
  - intros a b Ha. by rewrite collide_kept.
  - done.
Qed.

Lemma kept_weaken s1 s2 : kept s1 = kept s2 -> kept_by_credit s1 = kept_by_credit s2.
Proof. unfold kept, kept_by_credit. congruence. Qed.

Lemma collect_kept s obj : kept_by_credit (collect s obj) = kept_by_credit s.
Proof. unfold collect. by destruct (not_in _ _). Qed.

Lemma handle_collectibles_kept st :
  kept_by_credit (session (handle_collectibles st)) = kept_by_credit (session st).
Proof.
  unfold handle_collectibles. cbn [session].
  apply (fold_left_invariant (fun s' => kept_by_credit s' = kept_by_credit (session st))).
  - intros a b Ha. by rewrite collect_kept.
  - done.
Qed.

Lemma update_player_state_kept s :
  kept (update_player_state s) = kept s.
Proof.
  unfold update_player_state.
  destruct (is_on_ground s); [by destruct (_ >? _)%dec | by destruct (_ <? _)%dec].
Qed.

Lemma before_fall_out_kept config s objs keys dt :
  kept_by_credit (session (before_fall_out config s objs keys dt)) = kept_by_credit s.
Proof.
  unfold before_fall_out. cbn [session].
  rewrite (kept_weaken _ _ (update_player_state_kept _)).
  rewrite handle_collectibles_kept.
  rewrite (kept_weaken _ _ (check_collisions_kept _ _)).
  apply kept_weaken, tentative_kept.
Qed.

Lemma fall_out_untouched st : untouched (session (fall_out st)) = untouched (session st).
Proof.
  unfold fall_out. destruct (_ >? _)%dec; [|done].
  by destruct (_ <=? 0).
Qed.

Lemma commit_position_untouched st : untouched (commit_position st) = untouched (session st).
Proof. done. Qed.

(** No tick assigns [id], [player_id], [level_id], [time_remaining],
    [is_completed] or [level]. *)
Lemma update_player_physics_untouched config s objs keys dt :
  untouched (update_player_physics config s objs keys dt) = untouched s.
Proof.
  unfold update_player_physics.
  rewrite commit_position_untouched, fall_out_untouched.
  pose proof (before_fall_out_kept config s objs keys dt) as H.
  unfold kept_by_credit in H. congruence.
Qed.

Lemma before_fall_out_level config s objs keys dt :
  level (session (before_fall_out config s objs keys dt)) = level s.
Proof.
  pose proof (before_fall_out_kept config s objs keys dt) as H.
  unfold kept_by_credit, untouched in H. congruence.
Qed.

Lemma before_fall_out_lives config s objs keys dt :
  lives_remaining (session (before_fall_out config s objs keys dt)) = lives_remaining s
  /\ is_game_over (session (before_fall_out config s objs keys dt)) = is_game_over s.
Proof.
  pose proof (before_fall_out_kept config s objs keys dt) as H.
  unfold kept_by_credit in H. split; congruence.
Qed.

End Frame.

(* ===================================================================== *)
(** ** Collectible credit                                                 *)
(* ===================================================================== *)

Module Credit.
Import GameSession GamePhysics Spec.

Lemma not_in_true (i : Z) (l : list Z) : not_in i l = true <-> i ∉ l.
Proof. unfold not_in. rewrite negb_true_iff, bool_decide_eq_false. done. Qed.

Lemma not_in_false (i : Z) (l : list Z) : not_in i l = false <-> i ∈ l.
Proof. unfold not_in. rewrite negb_false_iff, bool_decide_eq_true. done. Qed.

(** The collision loop only appends to the queue, and what it appends is
    decided by the box and the ids collected before the tick. *)
Lemma collide_queue box st obj :
  collectible_objects (collide box st obj)
  = collectible_objects st
    ++ (if queued box (collected_objects (session st)) obj then [obj] else []).
Proof.
  unfold collide, queued.
  destruct (CollisionBox.intersects _ _); cbn [andb]; [|by rewrite app_nil_r].
  destruct (_ && _); [done|].
  destruct (GameObject.is_solid obj); [|by rewrite app_nil_r].
  destruct (CollisionBox.get_overlap _ _) as [ox oy].
  destruct (ox <? oy)%dec; [by rewrite app_nil_r|].
  destruct (_ >? _)%dec; by rewrite app_nil_r.
Qed.

Lemma collide_collected box st obj :
  collected_objects (session (collide box st obj)) = collected_objects (session st).
Proof. pose proof (Frame.collide_kept box st obj) as H. unfold kept in H. congruence. Qed.

Lemma collision_loop_queue box objs st :
  collectible_objects (fold_left (collide box) objs st)
  = collectible_objects st
    ++ List.filter (queued box (collected_objects (session st))) objs.
Proof.
  revert st; induction objs as [|obj objs IH]; intros st; simpl.
  - by rewrite app_nil_r.
  - rewrite IH, collide_queue, collide_collected, <- app_assoc. f_equal.
    by destruct (queued box _ obj).
Qed.

(** The queue of a tick. *)
Lemma check_collisions_queue objs st :
  collectible_objects (check_collisions objs st)
  = List.filter (queued (player_box st) (collected_objects (session st))) objs.
Proof. unfold check_collisions. by rewrite collision_loop_queue. Qed.

(** One round of the crediting loop. *)
Lemma collect_fields s obj :
  let new := not_in (GameObject.id obj) (collected_objects s) in
  collected_objects (collect s obj)
  = (if new then collected_objects s ++ [GameObject.id obj] else collected_objects s)
  /\ coins_collected (collect s obj)
     = (if new then coins_collected s + 1 else coins_collected s)
  /\ current_score (collect s obj)
     = (if new then current_score s + GameObject.points_value obj else current_score s).
Proof. unfold collect. by destruct (not_in _ _). Qed.

(** The crediting loop, in closed form. *)
Lemma collect_loop queue : forall s,
  let s' := fold_left collect queue s in
  let got := credited (collected_objects s) queue in
  collected_objects s' = collected_objects s ++ (GameObject.id <$> got)
  /\ coins_collected s' = coins_collected s + Z.of_nat (length got)
  /\ current_score s' = current_score s + sum_points got.
Proof.
  induction queue as [|obj queue IH]; intros s; cbn zeta.
  - simpl. rewrite app_nil_r. repeat split; [lia | unfold sum_points; simpl; lia].
  - simpl fold_left. simpl credited.
    specialize (IH (collect s obj)). cbn zeta in IH.
    destruct IH as (Hc & Hn & Hs). rewrite Hc, Hn, Hs.
    destruct (collect_fields s obj) as (Fc & Fn & Fs). cbn zeta in Fc, Fn, Fs.
    rewrite Fc, Fn, Fs.
    destruct (not_in (GameObject.id obj) (collected_objects s)).
    + rewrite fmap_cons, <- app_assoc. cbn [length].
      repeat split; [lia | unfold sum_points; simpl; lia].
    + done.
Qed.

(** Credited objects come from the queue, with ids that are new and
    pairwise different. *)
Lemma credited_sound queue : forall collected obj,
  obj ∈ credited collected queue ->
  obj ∈ queue /\ (GameObject.id obj ∉ collected).
Proof.
  induction queue as [|o queue IH]; intros collected obj; simpl.
  - by intros ?%elem_of_nil.
  - destruct (not_in (GameObject.id o) collected) eqn:Hin.
    + intros [->|H]%elem_of_cons.
      * split; [left | by apply not_in_true].
      * destruct (IH _ _ H) as [H1 H2]. split; [by right|].
        intros Hc. apply H2. apply elem_of_app. by left.
    + intros H. destruct (IH _ _ H). split; [by right | done].
Qed.

Lemma credited_NoDup queue : forall collected,
  NoDup (GameObject.id <$> credited collected queue).
Proof.
  induction queue as [|o queue IH]; intros collected; simpl; [constructor|].
  destruct (not_in (GameObject.id o) collected); [|apply IH].
  rewrite fmap_cons. constructor; [|apply IH].
  intros (obj & Hid & Hobj)%list_elem_of_fmap.
  destruct (credited_sound _ _ _ Hobj) as [_ Hnew].
  apply Hnew. rewrite <- Hid. apply elem_of_app. right. by left.
Qed.

(** Every queued id ends up collected. *)
Lemma credited_complete queue : forall collected obj,
  obj ∈ queue ->
  GameObject.id obj ∈ collected ++ (GameObject.id <$> credited collected queue).
Proof.
  induction queue as [|o queue IH]; intros collected obj; simpl.
  - by intros ?%elem_of_nil.
  - destruct (not_in (GameObject.id o) collected) eqn:Hin.
    + rewrite fmap_cons.
      replace (collected ++ GameObject.id o :: (GameObject.id <$> credited (collected ++ [GameObject.id o]) queue))
        with ((collected ++ [GameObject.id o]) ++ (GameObject.id <$> credited (collected ++ [GameObject.id o]) queue))
        by (by rewrite <- app_assoc).
      intros [->|H]%elem_of_cons; [|by apply IH].
      apply elem_of_app. left. apply elem_of_app. right. by left.
    + intros [->|H]%elem_of_cons; [|by apply IH].
      apply elem_of_app. left. by apply not_in_false.
Qed.

(** One tick, in closed form: the ids, the coin count and the score grow
    by the credited objects and by nothing else. *)
Lemma tick_credit config s objs keys dt :
  let s' := update_player_physics config s objs keys dt in
  let got := credited_in_tick config s objs keys dt in
  collected_objects s' = collected_objects s ++ (GameObject.id <$> got)
  /\ coins_collected s' = coins_collected s + Z.of_nat (length got)
  /\ current_score s' = current_score s + sum_points got.
Proof.
  cbn zeta.
  set (st0 := tentative config s keys dt).
  set (st1 := check_collisions objs st0).
  assert (Hk0 : kept (session st1) = kept s).
  { unfold st1. rewrite Frame.check_collisions_kept. apply Frame.tentative_kept. }
  assert (Hq : collectible_objects st1
               = List.filter (queued (player_box st0) (collected_objects s)) objs).
  { unfold st1. rewrite check_collisions_queue. do 2 f_equal.
    pose proof (Frame.tentative_kept config s keys dt) as H. unfold kept in H.
    fold st0 in H. congruence. }
  pose proof (collect_loop (collectible_objects st1) (session st1)) as Hloop.
  cbn zeta in Hloop.
  assert (Hfinal : forall f : t -> Z * Z * list Z,
            f = (fun x => (coins_collected x, current_score x, collected_objects x)) ->
            f (update_player_physics config s objs keys dt)
            = f (fold_left collect (collectible_objects st1) (session st1))).
  { intros f ->. unfold update_player_physics, before_fall_out.
    fold st0. fold st1.
    pose proof (Frame.update_player_state_kept
      (session (handle_collectibles st1))) as Hu.
    unfold kept in Hu.
    unfold commit_position, fall_out. cbn [session new_x new_y collectible_objects].
    destruct (_ >? _)%dec; [destruct (_ <=? 0)|];
      cbn [session new_x new_y collectible_objects
           set_player_x set_player_y set_is_game_over set_lives_remaining
           set_player_velocity_x set_player_velocity_y
           coins_collected current_score collected_objects];
      unfold handle_collectibles in *; cbn [session] in *; congruence. }
  specialize (Hfinal _ eq_refl). cbn beta in Hfinal.
  unfold credited_in_tick. fold st0.
  rewrite <- Hq.
  assert (Hs : collected_objects (session st1) = collected_objects s
               /\ coins_collected (session st1) = coins_collected s
               /\ current_score (session st1) = current_score s).
  { unfold kept in Hk0. repeat split; congruence. }
  destruct Hs as (Hs1 & Hs2 & Hs3). rewrite Hs1, Hs2, Hs3 in Hloop.
  destruct Hloop as (H1 & H2 & H3).
  repeat split; congruence.
Qed.

End Credit.

(* ===================================================================== *)
(** ** Collectible credit over a whole session                            *)
(* ===================================================================== *)

Module Session.
Import GameSession GamePhysics Spec.

Lemma run_frames_cons config objs fr frames s :
  run_frames config objs (fr :: frames) s
  = run_frames config objs frames (update_player_physics config s objs fr.1 fr.2).
Proof. done. Qed.

Lemma run_frames_app config objs pre post s :
  run_frames config objs (pre ++ post) s
  = run_frames config objs post (run_frames config objs pre s).
Proof. unfold run_frames. by rewrite fold_left_app. Qed.

Lemma sum_points_app l1 l2 : sum_points (l1 ++ l2) = sum_points l1 + sum_points l2.
Proof.
  induction l1 as [|o l1 IH]; [done|].
  change (sum_points ((o :: l1) ++ l2))
    with (GameObject.points_value o + sum_points (l1 ++ l2)).
  change (sum_points (o :: l1)) with (GameObject.points_value o + sum_points l1).
  lia.
Qed.

(** What one tick credits is sound: queued objects of the level, with
    new and pairwise different ids. *)
Lemma credited_in_tick_sound config s objs keys dt obj :
  obj ∈ credited_in_tick config s objs keys dt ->
  (GameObject.id obj ∉ collected_objects s)
  /\ obj ∈ objs /\ GameObject.is_collectible obj = true.
Proof.
  unfold credited_in_tick. intros [Hq Hnew]%Credit.credited_sound.
  split; [done|].
  apply list_elem_of_In, filter_In in Hq. destruct Hq as [Hin Hq].
  split; [by apply list_elem_of_In|].
  unfold queued in Hq. apply andb_true_iff in Hq as [_ Hq].
  by apply andb_true_iff in Hq as [Hq _].
Qed.

(** An intersecting collectible is collected by the end of the tick. *)
Lemma tick_collects config s objs keys dt obj :
  obj ∈ objs -> GameObject.is_collectible obj = true ->
  CollisionBox.intersects (player_box (tentative config s keys dt)) (obj_box obj) = true ->
  GameObject.id obj ∈ collected_objects (update_player_physics config s objs keys dt).
Proof.
  intros Hin Hcol Hbox.
  destruct (Credit.tick_credit config s objs keys dt) as (Hc & _). cbn zeta in Hc.
  rewrite Hc. unfold credited_in_tick.
  destruct (not_in (GameObject.id obj) (collected_objects s)) eqn:Hnew.
  - apply Credit.credited_complete.
    apply list_elem_of_In, filter_In. split; [by apply list_elem_of_In|].
    unfold queued. by rewrite Hbox, Hcol, Hnew.
  - apply elem_of_app. left. by apply Credit.not_in_false.
Qed.

(** Any number of frames, in closed form. *)
Lemma run_frames_credit config objs frames : forall s,
  exists got : list GameObject.t,
    collected_objects (run_frames config objs frames s)
    = collected_objects s ++ (GameObject.id <$> got)
    /\ NoDup (GameObject.id <$> got)
    /\ (forall obj, obj ∈ got ->
          (GameObject.id obj ∉ collected_objects s)
          /\ obj ∈ objs /\ GameObject.is_collectible obj = true)
    /\ coins_collected (run_frames config objs frames s)
       = coins_collected s + Z.of_nat (length got)
    /\ current_score (run_frames config objs frames s)
       = current_score s + sum_points got.
Proof.
  induction frames as [|fr frames IH]; intros s.
  - exists []. simpl. rewrite app_nil_r.
    split; [done|]. split; [apply NoDup_nil_2|]. split; [by intros ? ?%elem_of_nil|].
    unfold sum_points; simpl; lia.
  - rewrite run_frames_cons.
    set (s1 := update_player_physics config s objs fr.1 fr.2).
    destruct (IH s1) as (got2 & Hc2 & Hnd2 & Hs2 & Hn2 & Hp2).
    destruct (Credit.tick_credit config s objs fr.1 fr.2) as (Hc1 & Hn1 & Hp1).
    cbn zeta in Hc1, Hn1, Hp1. fold s1 in Hc1, Hn1, Hp1.
    set (got1 := credited_in_tick config s objs fr.1 fr.2) in *.
    exists (got1 ++ got2).
    rewrite Hc2, Hn2, Hp2, Hc1, Hn1, Hp1, fmap_app, length_app, <- app_assoc.
    split; [done|]. split; [|split; [|split]].
    + apply NoDup_app. split; [apply Credit.credited_NoDup|]. split; [|done].
      intros i Hi1 (obj & -> & Hobj)%list_elem_of_fmap.
      destruct (Hs2 _ Hobj) as [Hnew _]. apply Hnew.
      rewrite Hc1. apply elem_of_app. by right.
    + intros obj [H1|H2]%elem_of_app.
      * by apply (credited_in_tick_sound config s objs fr.1 fr.2).
      * destruct (Hs2 _ H2) as (Hnew & Hin & Hcol). split; [|done].
        intros Hc. apply Hnew. rewrite Hc1. apply elem_of_app. by left.
    + lia.
    + rewrite sum_points_app. lia.
Qed.

Lemma run_frames_collected_mono config objs frames s i :
  i ∈ collected_objects s -> i ∈ collected_objects (run_frames config objs frames s).
Proof.
  intros Hi. destruct (run_frames_credit config objs frames s) as (got & -> & _).
  apply elem_of_app. by left.
Qed.

End Session.

(* ===================================================================== *)
(** ** The properties of the specification                                *)
(* ===================================================================== *)

Import GameSession GamePhysics Spec.

(** C3.  Collectible credit is idempotent per object id.  Over any run of
    frames on a level, the session gains a list [got] of credited
    objects: their ids are appended to [collected_objects], pairwise
    different and none of them collected before (an id that is already
    collected is never credited again); [coins_collected] grows by one
    and [current_score] by [points_value] for each of them and by nothing
    else; and an object that the player's box intersects in some frame
    has its id collected at the end, so it is credited exactly once
    however many frames overlap it. *)
Theorem collectible_credit_once (config : GameConfig.t)
    (level_objects : list GameObject.t)
    (frames : list (gmap string bool * DeltaTime)) (session : GameSession.t) :
  let session' := run_frames config level_objects frames session in
  exists got : list GameObject.t,
    collected_objects session' = collected_objects session ++ (GameObject.id <$> got)
    /\ NoDup (GameObject.id <$> got)
    /\ (forall obj, obj ∈ got ->
          (GameObject.id obj ∉ collected_objects session)
          /\ obj ∈ level_objects /\ GameObject.is_collectible obj = true)
    /\ coins_collected session' = coins_collected session + Z.of_nat (length got)
    /\ current_score session' = current_score session + sum_points got
    /\ (forall pre fr post obj,
          frames = pre ++ fr :: post ->
          obj ∈ level_objects -> GameObject.is_collectible obj = true ->
          CollisionBox.intersects
            (player_box (tentative config (run_frames config level_objects pre session)
                           fr.1 fr.2))
            (obj_box obj) = true ->
          GameObject.id obj ∈ collected_objects session').
Proof.
  cbn zeta.
  destruct (Session.run_frames_credit config level_objects frames session)
    as (got & Hc & Hnd & Hs & Hn & Hp).
  exists got. repeat split; try done; try (by apply Hs).
  intros pre fr post obj -> Hin Hcol Hbox.
  rewrite Session.run_frames_app, Session.run_frames_cons.
  apply Session.run_frames_collected_mono.
  by apply Session.tick_collects.
Qed.

(** Three frames on top of the first coin of World 1-1: the coin's id is
    collected at the end. *)
Lemma collectible_credit_once_witness :
  GameObject.id first_coin
  ∈ collected_objects
      (run_frames GameConfig.default [main_ground; first_coin]
         [(no_keys, dt_60fps); (no_keys, dt_60fps); (no_keys, dt_60fps)]
         at_first_coin).
Proof.
  destruct (collectible_credit_once GameConfig.default [main_ground; first_coin]
              [(no_keys, dt_60fps); (no_keys, dt_60fps); (no_keys, dt_60fps)]
              at_first_coin) as (got & _ & _ & _ & _ & _ & Hlive).
  apply (Hlive [(no_keys, dt_60fps)] (no_keys, dt_60fps) [(no_keys, dt_60fps)]).
  - reflexivity.
  - right. left.
  - reflexivity.
  - vm_compute. reflexivity.
Defined.

(** Overlapping the coin for three frames counts it once. *)
Example first_coin_counted_once :
  let s := run_frames GameConfig.default [main_ground; first_coin]
             [(no_keys, dt_60fps); (no_keys, dt_60fps); (no_keys, dt_60fps)]
             at_first_coin in
  collected_objects s = [7] /\ coins_collected s = 1 /\ current_score s = 100.
Proof. vm_compute. done. Qed.

(** C10.  The engine does not run the session timer: a tick returns the
    [time_remaining] it was given.  [coins_collected] and [current_score]
    change by the collectible credit of the tick and by nothing else: one
    coin and [points_value] points for each credited object, every one of
    them a collectible of the level that the player's box intersects and
    whose id was not collected before. *)
Theorem time_remaining_untouched (config : GameConfig.t) (session : GameSession.t)
    (level_objects : list GameObject.t) (keys_pressed : gmap string bool)
    (delta_time : DeltaTime) :
  let session' := update_player_physics config session level_objects keys_pressed delta_time in
  let got := credited_in_tick config session level_objects keys_pressed delta_time in
  time_remaining session' = time_remaining session
  /\ coins_collected session' = coins_collected session + Z.of_nat (length got)
  /\ current_score session' = current_score session + sum_points got
  /\ Forall (fun obj =>
       queued (player_box (tentative config session keys_pressed delta_time))
         (collected_objects session) obj = true) got.
Proof.
  cbn zeta.
  pose proof (Frame.update_player_physics_untouched config session level_objects
                keys_pressed delta_time) as Hu.
  destruct (Credit.tick_credit config session level_objects keys_pressed delta_time)
    as (_ & Hn & Hp).
  split; [unfold untouched in Hu; congruence|].
  split; [done|]. split; [done|].
  apply Forall_forall. intros obj Hobj.
  unfold credited_in_tick in Hobj.
  apply Credit.credited_sound in Hobj as [Hq _].
  apply list_elem_of_In, filter_In in Hq. by destruct Hq.
Qed.

(** C9.  [intersects] is the conjunction of the four strict comparisons
    (half-open intervals), the sums being decimal sums; two boxes that
    only share an edge, [a.x + a.width == b.x], do not intersect. *)
Theorem intersects_half_open (a b : CollisionBox.t) :
  (CollisionBox.intersects a b = true <->
     (CollisionBox.x a < CollisionBox.x b + CollisionBox.width b)%dec
     /\ (CollisionBox.x a + CollisionBox.width a > CollisionBox.x b)%dec
     /\ (CollisionBox.y a < CollisionBox.y b + CollisionBox.height b)%dec
     /\ (CollisionBox.y a + CollisionBox.height a > CollisionBox.y b)%dec)
  /\ ((CollisionBox.x a + CollisionBox.width a == CollisionBox.x b)%dec ->
      CollisionBox.intersects a b = false).
Proof.
  unfold CollisionBox.intersects, Decimal.lt, Decimal.gt, Decimal.gtb. split.
  - rewrite !andb_true_iff. tauto.
  - intros Hedge. apply DecimalFacts.eqv_not_ltb in Hedge as [_ Hedge].
    rewrite Hedge. by rewrite andb_false_r.
Qed.

(** A 24 x 32 box that ends at x = 124 and a platform that starts there. *)
Lemma intersects_half_open_witness :
  CollisionBox.intersects
    (CollisionBox.mk (dec 100 0) (dec 518 0) (dec 24 0) (dec 32 0))
    (CollisionBox.mk (dec 1240 (-1)) (dec 500 0) (dec 50 0) (dec 50 0)) = false.
Proof.
  apply (intersects_half_open
           (CollisionBox.mk (dec 100 0) (dec 518 0) (dec 24 0) (dec 32 0))
           (CollisionBox.mk (dec 1240 (-1)) (dec 500 0) (dec 50 0) (dec 50 0))).
  reflexivity.
Defined.

(** The clamp of lines 469-470 lands in [[0, width - 24]] as soon as
    that interval is not empty. *)
Lemma clamp_x_bounds (lvl : GameLevel.t) (x : decimal) :
  24 <= GameLevel.width lvl ->
  (zero <= clamp_x lvl x)%dec
  /\ (clamp_x lvl x <= Decimal.of_Z (GameLevel.width lvl) - player_width)%dec.
Proof.
  intros Hw. unfold clamp_x.
  set (bound := (Decimal.of_Z (GameLevel.width lvl) - player_width)%dec).
  split; [apply DecimalFacts.max_ge_l|].
  assert (Hb : (zero <= bound)%dec).
  { apply DecimalFacts.le_zero_l. apply DecimalFacts.fix_prec_nonneg.
    unfold Decimal.scaled; cbn [Decimal.coef Decimal.dexp Decimal.of_Z
      Decimal.copy_negate player_width].
    change (10 ^ (0 - Z.min 0 0)) with 1. lia. }
  unfold Decimal.max, Decimal.gtb.
  destruct (Decimal.ltb zero (Decimal.min x bound)); [apply DecimalFacts.min_le_r | done].
Qed.

Lemma update_player_physics_player_x config s objs keys dt :
  player_x (update_player_physics config s objs keys dt)
  = clamp_x (level s) (new_x (fall_out (before_fall_out config s objs keys dt))).
Proof.
  unfold update_player_physics, commit_position. cbn [player_x set_player_y set_player_x].
  f_equal.
  pose proof (Frame.fall_out_untouched (before_fall_out config s objs keys dt)) as H1.
  pose proof (Frame.before_fall_out_level config s objs keys dt) as H2.
  unfold untouched in H1. congruence.
Qed.

(** C4.  After a tick the horizontal position lies in [[0, width - 24]],
    whatever the session, the keys, the objects and the frame time, as
    soon as the level is at least as wide as the player.  The bound is the
    decimal [level.width - Decimal("24")] of line 470, which is the
    integer [width - 24] for every width below [10^28]. *)
Theorem player_x_clamped (config : GameConfig.t) (session : GameSession.t)
    (level_objects : list GameObject.t) (keys_pressed : gmap string bool)
    (delta_time : DeltaTime) :
  24 <= GameLevel.width (level session) ->
  let session' := update_player_physics config session level_objects keys_pressed delta_time in
  let bound := (Decimal.of_Z (GameLevel.width (level session)) - dec 24 0)%dec in
  (dec 0 0 <= player_x session')%dec
  /\ (player_x session' <= bound)%dec
  /\ (GameLevel.width (level session) < 10 ^ 28 ->
      bound = Decimal.of_Z (GameLevel.width (level session) - 24)).
Proof.
  intros Hw. cbn zeta. rewrite update_player_physics_player_x.
  destruct (clamp_x_bounds (level session)
              (new_x (fall_out (before_fall_out config session level_objects
                                  keys_pressed delta_time))) Hw) as [H0 H1].
  split; [done|]. split; [done|].
  intros Hlt. apply (DecimalFacts.sub_of_Z_exact _ 24). unfold Decimal.prec. lia.
Qed.

(** World 1-1 is 2400 wide: after a frame with the right arrow held the
    player is within [[0, 2376]]. *)
Lemma player_x_clamped_witness :
  (dec 0 0 <= player_x (update_player_physics GameConfig.default fresh_session
                          [main_ground] {[ "ArrowRight" := true ]} dt_60fps))%dec
  /\ (player_x (update_player_physics GameConfig.default fresh_session
                  [main_ground] {[ "ArrowRight" := true ]} dt_60fps)
      <= Decimal.of_Z 2400 - dec 24 0)%dec.
Proof.
  destruct (player_x_clamped GameConfig.default fresh_session [main_ground]
              {[ "ArrowRight" := true ]} dt_60fps) as (H0 & H1 & _).
  - vm_compute. discriminate.
  - split; [exact H0 | exact H1].
Defined.

(** The clamp holds along any run of frames. *)
Corollary player_x_clamped_run (config : GameConfig.t)
    (level_objects : list GameObject.t)
    (frames : list (gmap string bool * DeltaTime)) (session : GameSession.t) :
  24 <= GameLevel.width (level session) ->
  frames <> [] ->
  let session' := run_frames config level_objects frames session in
  (dec 0 0 <= player_x session')%dec
  /\ (player_x session' <= Decimal.of_Z (GameLevel.width (level session)) - dec 24 0)%dec.
Proof.
  intros Hw Hne. cbn zeta.
  destruct (exists_last Hne) as (pre & fr & ->).
  rewrite Session.run_frames_app.
  set (s1 := run_frames config level_objects pre session).
  assert (Hl : level s1 = level session).
  { unfold s1. clear. revert session.
    induction pre as [|f pre IH]; intros session; [done|].
    rewrite Session.run_frames_cons, IH.
    pose proof (Frame.update_player_physics_untouched config session level_objects
                  f.1 f.2) as H. unfold untouched in H. congruence. }
  rewrite <- Hl in Hw |- *.
  change (run_frames config level_objects [fr] s1)
    with (update_player_physics config s1 level_objects fr.1 fr.2).
  rewrite update_player_physics_player_x.
  by apply clamp_x_bounds.
Qed.

(** What the fall-out step and the commit do to the fields that the
    earlier steps have settled. *)
Lemma fall_out_cases (st : locals) :
  let fell := (new_y st >? Decimal.of_Z (GameLevel.height (level (session st))))%dec in
  let lives' := lives_remaining (session st) - 1 in
  fall_out st
  = if fell then
      if lives' <=? 0 then
        mkLocals (new_x st) (new_y st)
          (set_is_game_over true (set_lives_remaining lives' (session st)))
          (collectible_objects st)
      else
        mkLocals (GameLevel.player_spawn_x (level (session st)))
          (GameLevel.player_spawn_y (level (session st)))
          (set_player_velocity_y zero
             (set_player_velocity_x zero (set_lives_remaining lives' (session st))))
          (collectible_objects st)
    else st.
Proof. done. Qed.

(** C8.  The terminal flags are one-way latches under the engine.  A tick
    that is given [is_game_over = true] returns it true: the flag after a
    tick is the flag before, or-ed with "fell below the level with no life
    left".  [is_completed] is returned as it was given: the engine has no
    win check.  Completion is decided by the frame loop, which sets the
    flag when [coins_collected] reaches the number of coins of the level
    and never clears it. *)
Theorem terminal_flags_latch (config : GameConfig.t) (session : GameSession.t)
    (level_objects : list GameObject.t) (keys_pressed : gmap string bool)
    (delta_time : DeltaTime) :
  let st := before_fall_out config session level_objects keys_pressed delta_time in
  let session' := update_player_physics config session level_objects keys_pressed delta_time in
  (is_game_over session = true -> is_game_over session' = true)
  /\ is_game_over session'
     = is_game_over session
       || ((new_y st >? Decimal.of_Z (GameLevel.height (level session)))%dec
           && (lives_remaining session - 1 <=? 0))
  /\ is_completed session' = is_completed session
  /\ is_completed (check_win_condition session' level_objects)
     = is_completed session
       || (coins_collected session'
           >=? Z.of_nat (length (List.filter is_coin level_objects))).
Proof.
  cbn zeta.
  pose proof (Frame.update_player_physics_untouched config session level_objects
                keys_pressed delta_time) as Hu.
  assert (Hc : is_completed (update_player_physics config session level_objects
                               keys_pressed delta_time) = is_completed session)
    by (unfold untouched in Hu; congruence).
  destruct (Frame.before_fall_out_lives config session level_objects keys_pressed
              delta_time) as [Hl Hg].
  pose proof (Frame.before_fall_out_level config session level_objects keys_pressed
                delta_time) as Hlev.
  assert (Hover : is_game_over (update_player_physics config session level_objects
                                  keys_pressed delta_time)
                  = is_game_over session
                    || ((new_y (before_fall_out config session level_objects
                                  keys_pressed delta_time)
                         >? Decimal.of_Z (GameLevel.height (level session)))%dec
                        && (lives_remaining session - 1 <=? 0))).
  { unfold update_player_physics, commit_position.
    cbn [is_game_over set_player_y set_player_x].
    rewrite fall_out_cases. cbn zeta. rewrite Hlev, Hl.
    destruct (_ >? _)%dec; [destruct (_ <=? 0)|]; cbn [GamePhysics.session is_game_over
      set_is_game_over set_lives_remaining set_player_velocity_x
      set_player_velocity_y andb]; rewrite ?Hg;
      by rewrite ?orb_true_r, ?orb_false_r. }
  split; [intros Hin; rewrite Hover, Hin; done|].
  split; [done|]. split; [done|].
  unfold check_win_condition.
  destruct (_ >=? _); cbn [is_completed set_is_completed]; rewrite ?Hc;
    by rewrite ?orb_true_r, ?orb_false_r.
Qed.

(** A session whose game is over stays so after one more frame. *)
Lemma terminal_flags_latch_witness :
  is_game_over (update_player_physics GameConfig.default game_over_session
                  [main_ground] no_keys dt_60fps) = true.
Proof.
  destruct (terminal_flags_latch GameConfig.default game_over_session [main_ground]
              no_keys dt_60fps) as [Hlatch _].
  apply Hlatch. reflexivity.
Defined.

(** C2.  Falling out of the world.  When the position computed by the
    tick is below the level ([new_y > level.height] at line 457) the tick
    takes one life.  If none is left it sets [is_game_over] and keeps the
    computed position and velocities: no respawn.  Otherwise it moves the
    player to the spawn point and zeroes both velocities.  In both cases
    the x that is stored went through the clamp of line 470, which keeps a
    spawn x that lies within the level. *)
Theorem fall_out_of_world (config : GameConfig.t) (session : GameSession.t)
    (level_objects : list GameObject.t) (keys_pressed : gmap string bool)
    (delta_time : DeltaTime) :
  let st := before_fall_out config session level_objects keys_pressed delta_time in
  let session' := update_player_physics config session level_objects keys_pressed delta_time in
  let lvl := level session in
  (new_y st > Decimal.of_Z (GameLevel.height lvl))%dec ->
  lives_remaining session' = lives_remaining session - 1
  /\ (lives_remaining session - 1 <= 0 ->
        is_game_over session' = true
        /\ new_x (fall_out st) = new_x st /\ new_y (fall_out st) = new_y st
        /\ player_x session' = clamp_x lvl (new_x st)
        /\ player_y session' = new_y st
        /\ player_velocity_x session' = player_velocity_x (GamePhysics.session st)
        /\ player_velocity_y session' = player_velocity_y (GamePhysics.session st))
  /\ (0 < lives_remaining session - 1 ->
        is_game_over session' = is_game_over session
        /\ new_x (fall_out st) = GameLevel.player_spawn_x lvl
        /\ new_y (fall_out st) = GameLevel.player_spawn_y lvl
        /\ player_x session' = clamp_x lvl (GameLevel.player_spawn_x lvl)
        /\ player_y session' = GameLevel.player_spawn_y lvl
        /\ player_velocity_x session' = dec 0 0
        /\ player_velocity_y session' = dec 0 0
        /\ ((dec 0 0 < GameLevel.player_spawn_x lvl)%dec ->
            (GameLevel.player_spawn_x lvl
             <= Decimal.of_Z (GameLevel.width lvl) - dec 24 0)%dec ->
            player_x session' = GameLevel.player_spawn_x lvl)).
Proof.
  cbn zeta. intros Hfell. unfold Decimal.gt in Hfell.
  destruct (Frame.before_fall_out_lives config session level_objects keys_pressed
              delta_time) as [Hl Hg].
  pose proof (Frame.before_fall_out_level config session level_objects keys_pressed
                delta_time) as Hlev.
  rewrite update_player_physics_player_x.
  unfold update_player_physics, commit_position.
  rewrite fall_out_cases. cbn zeta. rewrite Hlev, Hl, Hfell.
  destruct (Z.leb_spec (lives_remaining session - 1) 0) as [Hdead|Halive];
    cbn [GamePhysics.session new_x new_y lives_remaining is_game_over player_y
         player_velocity_x player_velocity_y level
         set_player_x set_player_y set_is_game_over set_lives_remaining
         set_player_velocity_x set_player_velocity_y].
  - split; [done|]. split; [done|]. intros; lia.
  - rewrite ?Hlev. split; [done|]. split; [intros; lia|]. intros _.
    repeat (split; [done|]).
    intros Hpos Hin. unfold clamp_x, Decimal.max, Decimal.min, Decimal.gtb.
    unfold Decimal.le, Decimal.leb in Hin. apply negb_true_iff in Hin.
    fold player_width in Hin. rewrite Hin.
    unfold Decimal.lt in Hpos. fold zero in Hpos. by rewrite Hpos.
Qed.

(** Below the level with one life: game over, where the fall ended.
    With three lives: two are left, back at the spawn (100, 400). *)
Lemma fall_out_of_world_witness :
  (is_game_over (update_player_physics GameConfig.default (fallen_session 1)
                   [main_ground] no_keys dt_60fps) = true
   /\ player_y (update_player_physics GameConfig.default (fallen_session 1)
                  [main_ground] no_keys dt_60fps)
      = new_y (before_fall_out GameConfig.default (fallen_session 1)
                 [main_ground] no_keys dt_60fps))
  /\ (lives_remaining (update_player_physics GameConfig.default (fallen_session 3)
                         [main_ground] no_keys dt_60fps) = 2
      /\ player_x (update_player_physics GameConfig.default (fallen_session 3)
                     [main_ground] no_keys dt_60fps) = dec 100 0
      /\ player_y (update_player_physics GameConfig.default (fallen_session 3)
                     [main_ground] no_keys dt_60fps) = dec 400 0).
Proof.
  split.
  - destruct (fall_out_of_world GameConfig.default (fallen_session 1)
                [main_ground] no_keys dt_60fps) as (_ & Hdead & _).
    + vm_compute. reflexivity.
    + destruct Hdead as (Hover & _ & _ & _ & Hy & _).
      * vm_compute. discriminate.
      * split; [exact Hover | exact Hy].
  - destruct (fall_out_of_world GameConfig.default (fallen_session 3)
                [main_ground] no_keys dt_60fps) as (Hlives & _ & Halive).
    + vm_compute. reflexivity.
    + destruct Halive as (_ & _ & _ & _ & Hy & _ & _ & Hx).
      * vm_compute. reflexivity.
      * split; [exact Hlives|]. split; [|exact Hy].
        apply Hx; vm_compute; reflexivity.
Defined.

(** The respawn in numbers. *)
Example respawn_at_spawn :
  let s := update_player_physics GameConfig.default (fallen_session 3)
             [main_ground] no_keys dt_60fps in
  (player_x s, player_y s, player_velocity_x s, player_velocity_y s,
   lives_remaining s, is_game_over s)
  = (dec 100 0, dec 400 0, dec 0 0, dec 0 0, 2, false).
Proof. vm_compute. reflexivity. Qed.

(** The game-ending fall in numbers: the position is the one computed. *)
Example game_over_where_fallen :
  let s := update_player_physics GameConfig.default (fallen_session 1)
             [main_ground] no_keys dt_60fps in
  (player_x s, player_y s, player_velocity_y s, lives_remaining s, is_game_over s)
  = (dec 10000000000000000000 (-17), dec 7000022222222222222220444444 (-25),
     dec 133333333333333328 (-19), 0, true).
Proof. vm_compute. reflexivity. Qed.

(* --------------------------------------------------------------------- *)
(** *** Solid collisions                                                  *)
(* --------------------------------------------------------------------- *)

(** The loop body on an intersecting object that is not queued. *)
Lemma collide_solid box st obj :
  GameObject.is_solid obj = true ->
  CollisionBox.intersects box (obj_box obj) = true ->
  GameObject.is_collectible obj
  && not_in (GameObject.id obj) (collected_objects (session st)) = false ->
  resolves_solid box st obj (collide box st obj)
  /\ collectible_objects (collide box st obj) = collectible_objects st.
Proof.
  intros Hsolid Hbox Hq. unfold collide, resolves_solid.
  rewrite Hbox, Hq, Hsolid.
  destruct (CollisionBox.get_overlap box (obj_box obj)) as [ox oy].
  destruct (ox <? oy)%dec; [done|].
  by destruct (_ >? _)%dec.
Qed.

Lemma collision_loop_collected box objs st :
  collected_objects (session (fold_left (collide box) objs st))
  = collected_objects (session st).
Proof.
  apply (Frame.fold_left_invariant
           (fun st' => collected_objects (session st') = collected_objects (session st))).
  - intros a b Ha. by rewrite Credit.collide_collected.
  - done.
Qed.

(** C1 as stated fails for a solid object that is also a collectible not
    yet collected: the loop queues it and leaves position and velocity
    alone.  Here the player falls from the spawn onto [coin_block]. *)
Lemma solid_collectible_not_resolved :
  let st := tentative GameConfig.default fresh_session no_keys dt_60fps in
  GameObject.is_solid coin_block = true
  /\ CollisionBox.intersects (player_box st) (obj_box coin_block) = true
  /\ ~ resolves_solid (player_box st) (loop_entry st) coin_block
         (collide (player_box st) (loop_entry st) coin_block)
  /\ is_on_ground (update_player_physics GameConfig.default fresh_session
                     [coin_block] no_keys dt_60fps) = false.
Proof.
  cbn zeta. split; [reflexivity|]. split; [vm_compute; reflexivity|].
  split; [|vm_compute; reflexivity].
  intros H. vm_compute in H. destruct H as (H & _). discriminate H.
Qed.

(** C1 (amended).  In the collision loop of a tick, for every solid
    object that intersects the player's tentative box and is not queued
    as a new collectible (it is not collectible, or its id is already
    collected), the loop body resolves on the axis of smaller overlap:
    if [overlap_x < overlap_y] it sets [new_x] to the object's left edge
    minus 24 when [vx > 0], else to its right edge, and zeroes [vx];
    otherwise, when [vy > 0] it sets [new_y] to the object's top minus 32,
    zeroes [vy] and sets [is_on_ground]; else it sets [new_y] to the
    object's bottom edge and zeroes [vy].  [vx] and [vy] are the
    velocities when the loop reaches the object. *)
Theorem solid_collision_resolved (config : GameConfig.t) (session : GameSession.t)
    (keys_pressed : gmap string bool) (delta_time : DeltaTime)
    (pre post : list GameObject.t) (obj : GameObject.t) :
  let st := tentative config session keys_pressed delta_time in
  let box := player_box st in
  let reached := fold_left (collide box) pre (loop_entry st) in
  GameObject.is_solid obj = true ->
  CollisionBox.intersects box (obj_box obj) = true ->
  GameObject.is_collectible obj = false
  \/ GameObject.id obj ∈ collected_objects session ->
  resolves_solid box reached obj (collide box reached obj)
  /\ check_collisions (pre ++ obj :: post) st
     = fold_left (collide box) post (collide box reached obj).
Proof.
  cbn zeta. intros Hsolid Hbox Hnq. split.
  - apply collide_solid; [done | done |].
    destruct Hnq as [-> | Hin]; [done|].
    rewrite collision_loop_collected. unfold loop_entry.
    cbn [GamePhysics.session collected_objects set_is_on_ground].
    pose proof (Frame.tentative_kept config session keys_pressed delta_time) as Hk.
    unfold kept in Hk.
    replace (collected_objects
               (GamePhysics.session (tentative config session keys_pressed delta_time)))
      with (collected_objects session) by congruence.
    apply Credit.not_in_false in Hin. rewrite Hin. apply andb_false_r.
  - unfold check_collisions. by rewrite fold_left_app.
Qed.

(** Falling from the spawn onto a platform placed just below it: the
    overlap is smaller on the y axis and [vy > 0], so the player lands. *)
Lemma solid_collision_resolved_witness :
  let plat := GameObject.mk 30 1 PLATFORM (dec 0 0) (dec 432 0) (dec 800 0)
                (dec 50 0) true false 0 in
  let st := tentative GameConfig.default fresh_session no_keys dt_60fps in
  resolves_solid (player_box st) (loop_entry st) plat
    (collide (player_box st) (loop_entry st) plat).
Proof.
  cbn zeta.
  destruct (solid_collision_resolved GameConfig.default fresh_session no_keys dt_60fps
              [] []
              (GameObject.mk 30 1 PLATFORM (dec 0 0) (dec 432 0) (dec 800 0)
                 (dec 50 0) true false 0)) as [Hres _].
  - reflexivity.
  - vm_compute. reflexivity.
  - left. reflexivity.
  - exact Hres.
Defined.

(** The landing in numbers: y = 432 - 32, at rest, on the ground. *)
Example landing_on_platform :
  let plat := GameObject.mk 30 1 PLATFORM (dec 0 0) (dec 432 0) (dec 800 0)
                (dec 50 0) true false 0 in
  let s := update_player_physics GameConfig.default fresh_session [plat]
             no_keys dt_60fps in
  (player_y s, player_velocity_y s, is_on_ground s) = (dec 400 0, dec 0 0, true).
Proof. vm_compute. reflexivity. Qed.

(* --------------------------------------------------------------------- *)
(** *** Terminal sessions                                                 *)
(* --------------------------------------------------------------------- *)

(** No step before the fall-out check reads a terminal flag: each step
    commutes with replacing the flags. *)
Module Flags.

Lemma with_flags_id (s : GameSession.t) :
  with_flags (is_completed s) (is_game_over s) s = s.
Proof. by destruct s. Qed.

Lemma tentative_flags config c g s keys dt :
  tentative config (with_flags c g s) keys dt
  = locals_with_flags c g (tentative config s keys dt).
Proof.
  unfold tentative, locals_with_flags.
  cbn [GamePhysics.session new_x new_y collectible_objects].
  set (l := keys_get keys "ArrowLeft" || keys_get keys "a").
  set (r := keys_get keys "ArrowRight" || keys_get keys "d").
  set (j := keys_get keys " " || keys_get keys "ArrowUp" || keys_get keys "w").
  assert (Hh : apply_horizontal_movement config l r (dt_decimal dt) (with_flags c g s)
               = with_flags c g (apply_horizontal_movement config l r (dt_decimal dt) s)).
  { unfold apply_horizontal_movement. destruct l; [done|]. destruct r; [done|].
    cbn [is_on_ground with_flags set_is_completed set_is_game_over].
    destruct (is_on_ground s);
      cbn [player_velocity_x set_player_velocity_x with_flags set_is_completed
           set_is_game_over]; by destruct (_ <? _)%dec. }
  rewrite Hh.
  set (s1 := apply_horizontal_movement config l r (dt_decimal dt) s).
  assert (Hj : apply_jumping config j (with_flags c g s1)
               = with_flags c g (apply_jumping config j s1)).
  { unfold apply_jumping. cbn [is_on_ground with_flags set_is_completed set_is_game_over].
    by destruct (j && is_on_ground s1). }
  rewrite Hj.
  set (s2 := apply_jumping config j s1).
  assert (Hg : apply_gravity config (dt_decimal dt) (with_flags c g s2)
               = with_flags c g (apply_gravity config (dt_decimal dt) s2)).
  { unfold apply_gravity. cbn [is_on_ground with_flags set_is_completed set_is_game_over].
    by destruct (negb (is_on_ground s2)). }
  rewrite Hg. done.
Qed.

Lemma collide_flags box c g st obj :
  collide box (locals_with_flags c g st) obj
  = locals_with_flags c g (collide box st obj).
Proof.
  unfold collide, locals_with_flags.
  cbn [GamePhysics.session new_x new_y collectible_objects collected_objects
       player_velocity_x player_velocity_y with_flags set_is_completed set_is_game_over].
  destruct (CollisionBox.intersects _ _); [|done].
  destruct (_ && _); [done|].
  destruct (GameObject.is_solid obj); [|done].
  destruct (CollisionBox.get_overlap _ _) as [ox oy].
  destruct (ox <? oy)%dec; [done|].
  by destruct (_ >? _)%dec.
Qed.

Lemma check_collisions_flags objs c g st :
  check_collisions objs (locals_with_flags c g st)
  = locals_with_flags c g (check_collisions objs st).
Proof.
  unfold check_collisions.
  change (player_box (locals_with_flags c g st)) with (player_box st).
  change (loop_entry (locals_with_flags c g st))
    with (locals_with_flags c g (loop_entry st)).
  generalize (loop_entry st) as st0.
  induction objs as [|obj objs IH]; intros st0; [done|].
  simpl. by rewrite collide_flags, IH.
Qed.

Lemma collect_flags c g s obj :
  collect (with_flags c g s) obj = with_flags c g (collect s obj).
Proof.
  unfold collect.
  cbn [collected_objects with_flags set_is_completed set_is_game_over].
  by destruct (not_in _ _).
Qed.

Lemma handle_collectibles_flags c g st :
  handle_collectibles (locals_with_flags c g st)
  = locals_with_flags c g (handle_collectibles st).
Proof.
  unfold handle_collectibles, locals_with_flags.
  cbn [GamePhysics.session new_x new_y collectible_objects]. f_equal.
  generalize (GamePhysics.session st) as s.
  induction (collectible_objects st) as [|obj q IH]; intros s; [done|].
  simpl. by rewrite collect_flags, IH.
Qed.

Lemma update_player_state_flags c g s :
  update_player_state (with_flags c g s) = with_flags c g (update_player_state s).
Proof.
  unfold update_player_state.
  cbn [is_on_ground player_velocity_x player_velocity_y with_flags
       set_is_completed set_is_game_over].
  destruct (is_on_ground s); [by destruct (_ >? _)%dec | by destruct (_ <? _)%dec].
Qed.

Lemma before_fall_out_flags config c g s objs keys dt :
  before_fall_out config (with_flags c g s) objs keys dt
  = locals_with_flags c g (before_fall_out config s objs keys dt).
Proof.
  unfold before_fall_out.
  rewrite tentative_flags, check_collisions_flags, handle_collectibles_flags.
  unfold locals_with_flags at 1 2 3 4.
  cbn [GamePhysics.session new_x new_y collectible_objects].
  by rewrite update_player_state_flags.
Qed.

(** A tick on a session is the tick on the same session with both flags
    cleared, with [is_completed] put back and [is_game_over] or-ed in. *)
Lemma update_player_physics_flags config c g s objs keys dt :
  let cleared := update_player_physics config (with_flags false false s) objs keys dt in
  update_player_physics config (with_flags c g s) objs keys dt
  = with_flags c (g || is_game_over cleared) cleared.
Proof.
  cbn zeta. unfold update_player_physics. rewrite !before_fall_out_flags.
  set (st := before_fall_out config s objs keys dt).
  unfold commit_position. rewrite !fall_out_cases. cbn zeta.
  unfold locals_with_flags.
  cbn [GamePhysics.session new_x new_y collectible_objects level lives_remaining
       with_flags set_is_completed set_is_game_over].
  destruct (_ >? _)%dec; [destruct (_ <=? 0)|];
    cbn [GamePhysics.session new_x new_y collectible_objects level is_game_over
         set_player_x set_player_y set_lives_remaining set_player_velocity_x
         set_player_velocity_y set_is_game_over];
    by rewrite ?orb_true_r, ?orb_false_r.
Qed.

End Flags.

(** C5 as stated fails: a session whose game is over, at the spawn of
    World 1-1, is not returned unchanged; gravity has moved it. *)
Lemma terminal_tick_not_noop :
  terminal game_over_session
  /\ update_player_physics GameConfig.default game_over_session [main_ground]
       no_keys dt_60fps <> game_over_session
  /\ player_velocity_y (update_player_physics GameConfig.default game_over_session
                          [main_ground] no_keys dt_60fps)
     = dec 133333333333333328 (-19).
Proof.
  split; [left; reflexivity|]. split; [|vm_compute; reflexivity].
  intros H. apply (f_equal player_velocity_y) in H. vm_compute in H. discriminate H.
Qed.

(** C5 (amended).  The engine does not gate on the terminal flags.  For a
    session whose [is_game_over] or [is_completed] is true a tick is the
    ordinary tick: the session returned is the one returned for the same
    session with both flags cleared (position, velocity, lives, coins and
    score move as in any frame), except for the flags themselves:
    [is_completed] is returned as given and [is_game_over] stays true, so
    the session stays terminal. *)
Theorem terminal_session_ticks_on (config : GameConfig.t) (session : GameSession.t)
    (level_objects : list GameObject.t) (keys_pressed : gmap string bool)
    (delta_time : DeltaTime) :
  terminal session ->
  let cleared :=
    update_player_physics config (with_flags false false session) level_objects
      keys_pressed delta_time in
  let session' := update_player_physics config session level_objects keys_pressed delta_time in
  session'
  = with_flags (is_completed session) (is_game_over session || is_game_over cleared) cleared
  /\ is_completed session' = is_completed session
  /\ is_game_over session' = is_game_over session || is_game_over cleared
  /\ terminal session'.
Proof.
  intros Hterm. cbn zeta.
  pose proof (Flags.update_player_physics_flags config (is_completed session)
                (is_game_over session) session level_objects keys_pressed delta_time) as H.
  cbn zeta in H. rewrite Flags.with_flags_id in H.
  split; [exact H|].
  rewrite H. cbn [with_flags is_completed is_game_over set_is_completed set_is_game_over].
  split; [done|]. split; [done|].
  unfold terminal in *.
  cbn [with_flags is_completed is_game_over set_is_completed set_is_game_over].
  destruct Hterm as [Hg | Hc]; [left | right]; rewrite ?Hg, ?Hc; done.
Qed.

(** After the game is over the next frame still applies gravity, as it
    does for the fresh session. *)
Lemma terminal_session_ticks_on_witness :
  update_player_physics GameConfig.default game_over_session [main_ground]
    no_keys dt_60fps
  = with_flags false true
      (update_player_physics GameConfig.default (with_flags false false game_over_session)
         [main_ground] no_keys dt_60fps).
Proof.
  destruct (terminal_session_ticks_on GameConfig.default game_over_session
              [main_ground] no_keys dt_60fps) as [Heq _].
  - left. reflexivity.
  - exact Heq.
Defined.

(* --------------------------------------------------------------------- *)
(** *** The end-to-end fall and the friction sequence                     *)
(* --------------------------------------------------------------------- *)

(** C6 as stated fails: after 120 frames the player, fallen 16 of the 118
    pixels to the platform, is not at rest on it. *)
Lemma not_landed_after_120_ticks :
  let s := run_ticks 120 GameConfig.default fresh_session [main_ground]
             no_keys dt_60fps in
  ~ (is_on_ground s = true
     /\ (player_velocity_y s == dec 0 0)%dec
     /\ (player_y s == dec 518 0)%dec).
Proof. cbn zeta. intros (H & _). vm_compute in H. discriminate H. Qed.

Lemma airborne_for_spec config objs keys dt (n : nat) : forall s (k : nat),
  airborne_for n config s objs keys dt = true -> (k < n)%nat ->
  is_on_ground (run_ticks k config s objs keys dt) = false.
Proof.
  induction n as [|n IH]; intros s k Hair Hk; [lia|].
  simpl in Hair. apply andb_true_iff in Hair as [Hs Hrest].
  destruct k as [|k]; simpl.
  - by apply negb_true_iff.
  - apply IH; [done | lia].
Qed.

(** C6 (amended).  From the spawn (100, 400) of a level of gravity 0.8
    with the platform at y = 550 over x in [0, 800), with no keys and
    [dt = 1/60]: after 120 frames the player is still falling
    ([is_on_ground = false], [vy = 1.5999999999999999360],
    [y = 416.1333333333333320426666666]).  The player is airborne after
    every one of the first 325 frames; the frame that ends with the player
    at rest on the platform ([is_on_ground = true], [vy = 0],
    [y = 550 - 32 = 518]) is the 326th. *)
Theorem landed_after_326_ticks :
  let run n := run_ticks n GameConfig.default fresh_session [main_ground]
                 no_keys dt_60fps in
  (is_on_ground (run 120%nat) = false
   /\ player_velocity_y (run 120%nat) = dec 15999999999999999360 (-19)
   /\ player_y (run 120%nat) = dec 4161333333333333320426666666 (-25))
  /\ (forall k : nat, (k < 326)%nat -> is_on_ground (run k) = false)
  /\ (is_on_ground (run 326%nat) = true
      /\ player_velocity_y (run 326%nat) = dec 0 0
      /\ player_y (run 326%nat) = dec 518 0).
Proof.
  cbn zeta. split; [vm_compute; done|]. split; [|vm_compute; done].
  intros k Hk. apply (airborne_for_spec _ _ _ _ 326); [|done].
  vm_compute. reflexivity.
Qed.

(** Frame 200 is one of the airborne ones. *)
Lemma landed_after_326_ticks_witness :
  is_on_ground (run_ticks 200 GameConfig.default fresh_session [main_ground]
                  no_keys dt_60fps) = false.
Proof.
  destruct landed_after_326_ticks as (_ & Hair & _).
  apply (Hair 200%nat). lia.
Defined.

(** Without keys, a tick that starts on the ground multiplies [vx] by the
    friction, and snaps it to zero below 0.1. *)
Lemma vx_after_input_grounded config s dt :
  is_on_ground s = true ->
  vx_after_input config s no_keys dt
  = let v := (player_velocity_x s * GameConfig.friction config)%dec in
    if (Decimal.abs v <? dec 1 (-1))%dec then dec 0 0 else v.
Proof.
  intros Hg. unfold vx_after_input, tentative.
  cbn [GamePhysics.session].
  change (keys_get no_keys "ArrowLeft" || keys_get no_keys "a") with false.
  change (keys_get no_keys "ArrowRight" || keys_get no_keys "d") with false.
  change (keys_get no_keys " " || keys_get no_keys "ArrowUp" || keys_get no_keys "w")
    with false.
  pose proof (Frame.apply_horizontal_movement_kept config false false (dt_decimal dt) s) as Hk.
  set (s1 := apply_horizontal_movement config false false (dt_decimal dt) s) in *.
  assert (Hg1 : is_on_ground s1 = true).
  { unfold s1, apply_horizontal_movement. rewrite Hg.
    cbn [player_velocity_x set_player_velocity_x].
    destruct (_ <? _)%dec; exact Hg. }
  unfold apply_jumping. cbn [andb].
  unfold apply_gravity. rewrite Hg1. cbn [negb].
  unfold s1, apply_horizontal_movement. rewrite Hg.
  cbn [player_velocity_x set_player_velocity_x].
  by destruct (_ <? _)%dec.
Qed.

(** Without keys, a tick that starts in the air uses the air resistance. *)
Lemma vx_after_input_airborne config s dt :
  is_on_ground s = false ->
  vx_after_input config s no_keys dt
  = let v := (player_velocity_x s * GameConfig.air_resistance config)%dec in
    if (Decimal.abs v <? dec 1 (-1))%dec then dec 0 0 else v.
Proof.
  intros Hg. unfold vx_after_input, tentative.
  cbn [GamePhysics.session].
  change (keys_get no_keys "ArrowLeft" || keys_get no_keys "a") with false.
  change (keys_get no_keys "ArrowRight" || keys_get no_keys "d") with false.
  change (keys_get no_keys " " || keys_get no_keys "ArrowUp" || keys_get no_keys "w")
    with false.
  set (s1 := apply_horizontal_movement config false false (dt_decimal dt) s) in *.
  assert (Hg1 : is_on_ground s1 = false).
  { unfold s1, apply_horizontal_movement. rewrite Hg.
    cbn [player_velocity_x set_player_velocity_x].
    destruct (_ <? _)%dec; exact Hg. }
  unfold apply_jumping. cbn [andb].
  unfold apply_gravity. rewrite Hg1. cbn [negb].
  cbn [player_velocity_x set_player_velocity_y].
  unfold s1, apply_horizontal_movement. rewrite Hg.
  cbn [player_velocity_x set_player_velocity_x].
  by destruct (_ <? _)%dec.
Qed.

(** C7 as stated fails: for the player standing on the main ground with
    the default air resistance 0.95, three successive frames give
    8.00, 7.6000 and 6.08000, and 6.08 is not below 6.0.  The first frame
    ends with [is_on_ground = false] (the box only touches the platform),
    so the second one applies the air resistance. *)
Lemma friction_three_ticks_not_below_6 :
  let v n := player_velocity_x
               (run_ticks n GameConfig.default sliding_session [main_ground]
                  no_keys dt_60fps) in
  GameConfig.friction GameConfig.default = dec 8 (-1)
  /\ v 0%nat = dec 100 (-1) /\ is_on_ground sliding_session = true
  /\ ~ ((v 1%nat < v 0%nat)%dec /\ (v 2%nat < v 1%nat)%dec /\ (v 3%nat < v 2%nat)%dec
        /\ (v 3%nat < dec 60 (-1))%dec /\ (dec 0 0 < v 3%nat)%dec).
Proof.
  cbn zeta. split; [reflexivity|]. split; [reflexivity|]. split; [reflexivity|].
  intros (_ & _ & _ & H & _). vm_compute in H. discriminate H.
Qed.

(** C7 (amended).  With friction 0.8 and no input, the horizontal
    velocity that a tick applies when it starts with [is_on_ground = true]
    is the previous one times 0.8: in three ticks that each start on the
    ground, from 10.0, the velocities are 8.00, 6.400 and 5.1200, strictly
    decreasing, the last one below 6.0 and above 0.  Three successive
    calls of [update_player_physics] do not each start on the ground: the
    collision loop clears [is_on_ground] unless the player lands in that
    frame.  For the player standing on the main ground, with the default
    air resistance 0.95, they return 8.00 (airborne), 7.6000 (landed) and
    6.08000: strictly decreasing and above 0, but not below 6.0. *)
Theorem friction_three_grounded_ticks (config : GameConfig.t) (delta_time : DeltaTime)
    (s1 s2 s3 : GameSession.t) :
  GameConfig.friction config = dec 8 (-1) ->
  is_on_ground s1 = true -> is_on_ground s2 = true -> is_on_ground s3 = true ->
  player_velocity_x s1 = dec 100 (-1) ->
  player_velocity_x s2 = vx_after_input config s1 no_keys delta_time ->
  player_velocity_x s3 = vx_after_input config s2 no_keys delta_time ->
  let v1 := vx_after_input config s1 no_keys delta_time in
  let v2 := vx_after_input config s2 no_keys delta_time in
  let v3 := vx_after_input config s3 no_keys delta_time in
  (v1 = dec 800 (-2) /\ v2 = dec 6400 (-3) /\ v3 = dec 51200 (-4))
  /\ ((v1 < dec 100 (-1))%dec /\ (v2 < v1)%dec /\ (v3 < v2)%dec
      /\ (v3 < dec 60 (-1))%dec /\ (dec 0 0 < v3)%dec)
  /\ (let s n := run_ticks n GameConfig.default sliding_session [main_ground]
                   no_keys dt_60fps in
      (player_velocity_x (s 1%nat), is_on_ground (s 1%nat)) = (dec 800 (-2), false)
      /\ (player_velocity_x (s 2%nat), is_on_ground (s 2%nat)) = (dec 76000 (-4), true)
      /\ (player_velocity_x (s 3%nat), is_on_ground (s 3%nat)) = (dec 608000 (-5), false)).
Proof.
  intros Hf Hg1 Hg2 Hg3 Hv1 Hv2 Hv3. cbn zeta.
  assert (H1 : vx_after_input config s1 no_keys delta_time = dec 800 (-2)).
  { rewrite vx_after_input_grounded by done. rewrite Hv1, Hf. vm_compute. reflexivity. }
  assert (H2 : vx_after_input config s2 no_keys delta_time = dec 6400 (-3)).
  { rewrite vx_after_input_grounded by done. rewrite Hv2, H1, Hf. vm_compute. reflexivity. }
  assert (H3 : vx_after_input config s3 no_keys delta_time = dec 51200 (-4)).
  { rewrite vx_after_input_grounded by done. rewrite Hv3, H2, Hf. vm_compute. reflexivity. }
  rewrite H1, H2, H3.
  split; [done|]. split; [vm_compute; done|]. vm_compute. done.
Qed.

(** Three sessions on the ground, sliding at 10.0, 8.00 and 6.400. *)
Lemma friction_three_grounded_ticks_witness :
  vx_after_input GameConfig.default
    (set_player_velocity_x (dec 6400 (-3)) sliding_session) no_keys dt_60fps
  = dec 51200 (-4).
Proof.
  destruct (friction_three_grounded_ticks GameConfig.default dt_60fps
              sliding_session
              (set_player_velocity_x (dec 800 (-2)) sliding_session)
              (set_player_velocity_x (dec 6400 (-3)) sliding_session))
    as ((_ & _ & H3) & _); [reflexivity .. | exact H3].
Defined.

(* ===================================================================== *)
(** ** Further properties of the code                                     *)
(* ===================================================================== *)

(* --------------------------------------------------------------------- *)
(** *** Decimal facts used below                                          *)
(* --------------------------------------------------------------------- *)

Module DecimalOrder.
Import Decimal DecimalFacts.

(** Rounding a number of more than 28 digits leaves at least [10^27]. *)
Lemma fix_prec_pos (d : t) : 0 < coef d -> 0 < coef (fix_prec d).
Proof.
  intros Hd. unfold fix_prec.
  destruct (Z.leb_spec (ndigits (Z.abs (coef d)) - prec) 0) as [|Hk]; [done|].
  set (a := Z.abs (coef d)) in *.
  set (k := ndigits a - prec) in *.
  assert (Ha : 0 < a) by (unfold a; lia).
  pose proof (ndigits_spec a ltac:(lia)) as [Hlo _].
  rewrite Z.abs_eq in Hlo by lia.
  assert (Hp : 0 < 10 ^ k) by (apply Z.pow_pos_nonneg; lia).
  assert (Hq : 1 <= a / 10 ^ k).
  { apply Z.div_le_lower_bound; [lia|]. rewrite Z.mul_1_r.
    etransitivity; [|exact Hlo].
    apply Z.pow_le_mono_r; unfold k, prec; lia. }
  assert (Hr : 1 <= round_half_even (a / 10 ^ k) (a mod 10 ^ k) (5 * 10 ^ (k - 1))).
  { unfold round_half_even. destruct (_ || _); lia. }
  rewrite (Z.sgn_pos (coef d)) by lia.
  destruct (_ =? 10 ^ prec); cbn [coef]; [vm_compute; done | lia].
Qed.

(** Rounding commutes with the change of sign. *)
Lemma fix_prec_negate (d : t) : fix_prec (copy_negate d) = copy_negate (fix_prec d).
Proof.
  unfold fix_prec, copy_negate. cbn [coef dexp].
  rewrite Z.abs_opp, Z.sgn_opp.
  destruct (_ <=? 0); [done|].
  destruct (_ =? 10 ^ prec); cbn [coef dexp]; f_equal; lia.
Qed.

Lemma cmp_zero_r (d : t) : cmp d (mk 0 0) = (coef d ?= 0).
Proof.
  rewrite (cmp_antisym (mk 0 0) d), cmp_zero_l. symmetry. apply Z.compare_antisym.
Qed.

Lemma lt_zero_l (d : t) : lt (mk 0 0) d <-> 0 < coef d.
Proof.
  unfold lt, ltb. rewrite cmp_zero_l.
  destruct (Z.compare_spec 0 (coef d)); split; intros; try done; lia.
Qed.

Lemma le_zero_r (d : t) : le d (mk 0 0) <-> coef d <= 0.
Proof.
  unfold le, leb, ltb. rewrite cmp_zero_l.
  destruct (Z.compare_spec 0 (coef d)); simpl; split; intros; try done; lia.
Qed.

(** The opposite of a non-negative number is at most zero. *)
Lemma neg_nonpos (d : t) : le (mk 0 0) d -> le (neg d) (mk 0 0).
Proof.
  intros H%le_zero_l. apply le_zero_r. unfold neg. rewrite fix_prec_negate.
  pose proof (fix_prec_nonneg d H). cbn [copy_negate coef]. lia.
Qed.

(** A difference has the sign of the comparison. *)
Lemma sub_pos (a b : t) : lt b a -> lt (mk 0 0) (sub a b).
Proof.
  unfold lt at 1. unfold ltb, cmp. intros H. apply lt_zero_l.
  unfold sub, add. apply fix_prec_pos. cbn [coef copy_negate dexp].
  unfold scaled in *. cbn [coef dexp].
  destruct (Z.compare_spec (coef b * 10 ^ (dexp b - Z.min (dexp b) (dexp a)))
              (coef a * 10 ^ (dexp a - Z.min (dexp b) (dexp a)))) as [|Hlt|]; try done.
  unfold copy_negate. cbn [coef dexp].
  rewrite (Z.min_comm (dexp a)), Z.mul_opp_l. lia.
Qed.

Lemma max_ge_r (a b : t) : le b (max a b).
Proof.
  unfold max, gtb. destruct (ltb a b) eqn:H; [apply le_refl | by apply not_ltb_le].
Qed.

Lemma min_le_l (a b : t) : le (min a b) a.
Proof.
  unfold min. destruct (ltb b a) eqn:H; [by apply lt_le | apply le_refl].
Qed.

(** The minimum and the maximum are one of their arguments. *)
Lemma min_cases (a b : t) : min a b = a \/ min a b = b.
Proof. unfold min. destruct (ltb b a); auto. Qed.

Lemma max_cases (a b : t) : max a b = a \/ max a b = b.
Proof. unfold max. destruct (gtb b a); auto. Qed.

End DecimalOrder.

(* --------------------------------------------------------------------- *)
(** *** Collision boxes                                                   *)
(* --------------------------------------------------------------------- *)

(** X1.  [intersects] is symmetric: [a.intersects(b)] and
    [b.intersects(a)] always agree. *)
Theorem intersects_symmetric (a b : CollisionBox.t) :
  CollisionBox.intersects a b = CollisionBox.intersects b a.
Proof.
  unfold CollisionBox.intersects, Decimal.gtb.
  destruct (Decimal.ltb (CollisionBox.x a) _), (Decimal.ltb (CollisionBox.x b) _),
    (Decimal.ltb (CollisionBox.y a) _), (Decimal.ltb (CollisionBox.y b) _); done.
Qed.

(** X2.  For two boxes that intersect, each with its right edge right of
    its left edge and its bottom edge below its top edge (as the decimal
    sums give them), [get_overlap] returns two strictly positive
    amounts. *)
Theorem get_overlap_positive (a b : CollisionBox.t) :
  CollisionBox.intersects a b = true ->
  (CollisionBox.x a < CollisionBox.x a + CollisionBox.width a)%dec ->
  (CollisionBox.x b < CollisionBox.x b + CollisionBox.width b)%dec ->
  (CollisionBox.y a < CollisionBox.y a + CollisionBox.height a)%dec ->
  (CollisionBox.y b < CollisionBox.y b + CollisionBox.height b)%dec ->
  (dec 0 0 < (CollisionBox.get_overlap a b).1)%dec
  /\ (dec 0 0 < (CollisionBox.get_overlap a b).2)%dec.
Proof.
  unfold CollisionBox.intersects, Decimal.gtb. rewrite !andb_true_iff.
  intros [[[H1 H2] H3] H4] Hxa Hxb Hya Hyb.
  unfold CollisionBox.get_overlap. cbn [fst snd].
  split; apply DecimalOrder.sub_pos; unfold Decimal.lt.
  - destruct (DecimalOrder.min_cases (CollisionBox.x a + CollisionBox.width a)
                (CollisionBox.x b + CollisionBox.width b)) as [-> | ->],
      (DecimalOrder.max_cases (CollisionBox.x a) (CollisionBox.x b)) as [-> | ->];
      done.
  - destruct (DecimalOrder.min_cases (CollisionBox.y a + CollisionBox.height a)
                (CollisionBox.y b + CollisionBox.height b)) as [-> | ->],
      (DecimalOrder.max_cases (CollisionBox.y a) (CollisionBox.y b)) as [-> | ->];
      done.
Qed.

(** The boxes of the test [test_collision_box_get_overlap]. *)
Lemma get_overlap_positive_witness :
  (dec 0 0 < (CollisionBox.get_overlap
                (CollisionBox.mk (dec 0 0) (dec 0 0) (dec 50 0) (dec 50 0))
                (CollisionBox.mk (dec 25 0) (dec 25 0) (dec 50 0) (dec 50 0))).1)%dec
  /\ (dec 0 0 < (CollisionBox.get_overlap
                   (CollisionBox.mk (dec 0 0) (dec 0 0) (dec 50 0) (dec 50 0))
                   (CollisionBox.mk (dec 25 0) (dec 25 0) (dec 50 0) (dec 50 0))).2)%dec.
Proof.
  apply (get_overlap_positive
           (CollisionBox.mk (dec 0 0) (dec 0 0) (dec 50 0) (dec 50 0))
           (CollisionBox.mk (dec 25 0) (dec 25 0) (dec 50 0) (dec 50 0)));
    reflexivity.
Defined.

(* --------------------------------------------------------------------- *)
(** *** How a tick reads the keys                                         *)
(* --------------------------------------------------------------------- *)

Module Steps.
Import GameSession GamePhysics Spec Level.

Lemma tentative_unfold config s keys dt :
  tentative config s keys dt
  = let s1 := apply_horizontal_movement config (Intent.move_left keys)
                (Intent.move_right keys) (dt_decimal dt) s in
    let s2 := apply_jumping config (Intent.jump keys) s1 in
    let s3 := apply_gravity config (dt_decimal dt) s2 in
    mkLocals (player_x s3 + player_velocity_x s3 * dt10_decimal dt)%dec
      (player_y s3 + player_velocity_y s3 * dt10_decimal dt)%dec s3 [].
Proof. done. Qed.

Lemma horizontal_on_ground config l r dt s :
  is_on_ground (apply_horizontal_movement config l r dt s) = is_on_ground s
  /\ player_velocity_y (apply_horizontal_movement config l r dt s) = player_velocity_y s.
Proof.
  unfold apply_horizontal_movement. destruct l; [done|]. destruct r; [done|].
  destruct (is_on_ground s) eqn:Hg; cbn [player_velocity_x set_player_velocity_x];
    by destruct (_ <? _)%dec.
Qed.

Lemma horizontal_left_wins config r1 r2 dt s :
  apply_horizontal_movement config true r1 dt s
  = apply_horizontal_movement config true r2 dt s.
Proof. done. Qed.

Lemma jumping_airborne config j1 j2 s :
  is_on_ground s = false -> apply_jumping config j1 s = apply_jumping config j2 s.
Proof. intros H. unfold apply_jumping. rewrite H. by rewrite !andb_false_r. Qed.

Lemma tentative_intents config s k1 k2 dt :
  Intent.move_left k1 = Intent.move_left k2 ->
  (Intent.move_left k1 = false -> Intent.move_right k1 = Intent.move_right k2) ->
  (is_on_ground s = true -> Intent.jump k1 = Intent.jump k2) ->
  tentative config s k1 dt = tentative config s k2 dt.
Proof.
  intros Hl Hr Hj. rewrite !tentative_unfold. cbn zeta.
  assert (Hh : apply_horizontal_movement config (Intent.move_left k1)
                 (Intent.move_right k1) (dt_decimal dt) s
               = apply_horizontal_movement config (Intent.move_left k2)
                   (Intent.move_right k2) (dt_decimal dt) s).
  { rewrite <- Hl. destruct (Intent.move_left k1); [apply horizontal_left_wins|].
    by rewrite Hr. }
  rewrite Hh.
  set (s1 := apply_horizontal_movement config (Intent.move_left k2)
               (Intent.move_right k2) (dt_decimal dt) s).
  assert (Hjump : apply_jumping config (Intent.jump k1) s1
                  = apply_jumping config (Intent.jump k2) s1).
  { destruct (is_on_ground s) eqn:Hg; [by rewrite Hj|].
    apply jumping_airborne. unfold s1.
    by rewrite (proj1 (horizontal_on_ground _ _ _ _ _)). }
  by rewrite Hjump.
Qed.

End Steps.

(** X3.  A tick reads the keys through three intents only: [move_left]
    (ArrowLeft or a), [move_right] (ArrowRight or d) when [move_left] is
    off, and [jump] (space, ArrowUp or w) when the session is on the
    ground.  Two key maps that agree on these give the same session: keys
    with other names and keys absent from the map do not matter, left wins
    over right, and jump is ignored in the air (no double jump). *)
Theorem keys_through_intents (config : GameConfig.t) (session : GameSession.t)
    (level_objects : list GameObject.t) (keys1 keys2 : gmap string bool)
    (delta_time : DeltaTime) :
  Intent.move_left keys1 = Intent.move_left keys2 ->
  (Intent.move_left keys1 = false -> Intent.move_right keys1 = Intent.move_right keys2) ->
  (is_on_ground session = true -> Intent.jump keys1 = Intent.jump keys2) ->
  update_player_physics config session level_objects keys1 delta_time
  = update_player_physics config session level_objects keys2 delta_time.
Proof.
  intros Hl Hr Hj. unfold update_player_physics, before_fall_out.
  by rewrite (Steps.tentative_intents config session keys1 keys2 delta_time Hl Hr Hj).
Qed.

(** In the air, left, right, space and an unknown key together act as
    the key a alone. *)
Lemma keys_through_intents_witness :
  update_player_physics GameConfig.default fresh_session [main_ground]
    {[ "ArrowLeft" := true; "ArrowRight" := true; " " := true; "x" := true ]} dt_60fps
  = update_player_physics GameConfig.default fresh_session [main_ground]
      {[ "a" := true ]} dt_60fps.
Proof.
  apply keys_through_intents.
  - vm_compute. reflexivity.
  - vm_compute. discriminate.
  - vm_compute. discriminate.
Defined.

(* --------------------------------------------------------------------- *)
(** *** What the collision loop depends on                                *)
(* --------------------------------------------------------------------- *)

Module Loop.
Import GameSession GamePhysics Spec Level.

Lemma collide_irrelevant box st obj :
  relevant box (collected_objects (session st)) obj = false ->
  collide box st obj = st.
Proof.
  unfold relevant, collide. intros H.
  destruct (CollisionBox.intersects _ _); [|done]. cbn [andb] in H.
  apply orb_false_iff in H as [-> ->]. done.
Qed.

Lemma collision_loop_filter box objs : forall st,
  fold_left (collide box) objs st
  = fold_left (collide box)
      (List.filter (relevant box (collected_objects (session st))) objs) st.
Proof.
  induction objs as [|obj objs IH]; intros st; [done|].
  cbn [fold_left List.filter].
  destruct (relevant box (collected_objects (session st)) obj) eqn:Hrel.
  - cbn [fold_left]. rewrite IH. by rewrite Credit.collide_collected.
  - rewrite collide_irrelevant by done. apply IH.
Qed.

Lemma tentative_collected config s keys dt :
  collected_objects (session (tentative config s keys dt)) = collected_objects s.
Proof.
  pose proof (Frame.tentative_kept config s keys dt) as H. unfold kept in H. congruence.
Qed.

Lemma check_collisions_filter objs st :
  check_collisions objs st
  = check_collisions
      (List.filter (relevant (player_box st) (collected_objects (session st))) objs) st.
Proof. unfold check_collisions. by rewrite collision_loop_filter. Qed.

Ltac collide_cases :=
  unfold collide;
  destruct (CollisionBox.intersects _ _) eqn:?;
    [destruct (_ && _) eqn:?;
       [|destruct (GameObject.is_solid _) eqn:?;
           [destruct (CollisionBox.get_overlap _ _) as [? ?];
            destruct (_ <? _)%dec; [|destruct (_ >? _)%dec]|]]|];
  cbn [session is_facing_right player_velocity_x player_velocity_y is_on_ground
       collected_objects set_player_velocity_x set_player_velocity_y set_is_on_ground].

(** The loop body leaves the facing alone, and each velocity as it found
    it or at zero. *)
Lemma collide_facing box st obj :
  is_facing_right (session (collide box st obj)) = is_facing_right (session st).
Proof. collide_cases; done. Qed.

Lemma collide_vx box st obj :
  player_velocity_x (session (collide box st obj)) = player_velocity_x (session st)
  \/ player_velocity_x (session (collide box st obj)) = zero.
Proof. collide_cases; auto. Qed.

Lemma collide_vy box st obj :
  player_velocity_y (session (collide box st obj)) = player_velocity_y (session st)
  \/ player_velocity_y (session (collide box st obj)) = zero.
Proof. collide_cases; auto. Qed.

(** Ground contact comes with a zero vertical velocity, and from a solid
    object that the loop resolves. *)
Lemma collide_grounded box st obj :
  (is_on_ground (session st) = true -> player_velocity_y (session st) = zero) ->
  is_on_ground (session (collide box st obj)) = true ->
  player_velocity_y (session (collide box st obj)) = zero.
Proof. collide_cases; auto. Qed.

Lemma collide_ground_cause box st obj :
  is_on_ground (session (collide box st obj)) = true ->
  is_on_ground (session st) = true
  \/ resolved box (collected_objects (session st)) obj = true.
Proof.
  unfold resolved. collide_cases; auto.
Qed.

Lemma collision_loop_facing box objs st :
  is_facing_right (session (fold_left (collide box) objs st))
  = is_facing_right (session st).
Proof.
  apply (Frame.fold_left_invariant
           (fun st' => is_facing_right (session st') = is_facing_right (session st)));
    [|done].
  intros a b Ha. by rewrite collide_facing.
Qed.

Lemma collision_loop_vx box objs st :
  player_velocity_x (session (fold_left (collide box) objs st))
  = player_velocity_x (session st)
  \/ player_velocity_x (session (fold_left (collide box) objs st)) = zero.
Proof.
  apply (Frame.fold_left_invariant
           (fun st' => player_velocity_x (session st') = player_velocity_x (session st)
                       \/ player_velocity_x (session st') = zero)); [|by left].
  intros a b [Ha|Ha]; destruct (collide_vx box a b) as [H|H]; rewrite H; auto.
Qed.

Lemma collision_loop_vy box objs st :
  player_velocity_y (session (fold_left (collide box) objs st))
  = player_velocity_y (session st)
  \/ player_velocity_y (session (fold_left (collide box) objs st)) = zero.
Proof.
  apply (Frame.fold_left_invariant
           (fun st' => player_velocity_y (session st') = player_velocity_y (session st)
                       \/ player_velocity_y (session st') = zero)); [|by left].
  intros a b [Ha|Ha]; destruct (collide_vy box a b) as [H|H]; rewrite H; auto.
Qed.

Lemma collision_loop_grounded box objs st :
  (is_on_ground (session st) = true -> player_velocity_y (session st) = zero) ->
  is_on_ground (session (fold_left (collide box) objs st)) = true ->
  player_velocity_y (session (fold_left (collide box) objs st)) = zero.
Proof.
  apply (Frame.fold_left_invariant
           (fun st' => is_on_ground (session st') = true ->
                       player_velocity_y (session st') = zero)).
  intros a b Ha. by apply collide_grounded.
Qed.

Lemma collision_loop_ground_cause box objs : forall st,
  is_on_ground (session (fold_left (collide box) objs st)) = true ->
  is_on_ground (session st) = true
  \/ exists obj, obj ∈ objs /\ resolved box (collected_objects (session st)) obj = true.
Proof.
  induction objs as [|obj objs IH]; intros st Hg; [by left|].
  cbn [fold_left] in Hg. destruct (IH _ Hg) as [H|(o & Ho & Hres)].
  - destruct (collide_ground_cause _ _ _ H) as [H'|H']; [by left|].
    right. exists obj. split; [left | done].
  - right. exists o. split; [by right|]. by rewrite Credit.collide_collected in Hres.
Qed.

(** Crediting and the derived state leave the motion alone. *)
Lemma collect_motion s obj :
  motion (collect s obj) = motion s /\ player_state (collect s obj) = player_state s.
Proof. unfold collect. by destruct (not_in _ _). Qed.

Lemma handle_collectibles_motion st :
  motion (session (handle_collectibles st)) = motion (session st)
  /\ player_state (session (handle_collectibles st)) = player_state (session st).
Proof.
  unfold handle_collectibles. cbn [session].
  apply (Frame.fold_left_invariant
           (fun s' => motion s' = motion (session st)
                      /\ player_state s' = player_state (session st))); [|done].
  intros a b [H1 H2]. destruct (collect_motion a b) as [-> ->]. done.
Qed.

Lemma update_player_state_motion s : motion (update_player_state s) = motion s.
Proof.
  unfold update_player_state.
  destruct (is_on_ground s); [by destruct (_ >? _)%dec | by destruct (_ <? _)%dec].
Qed.

(** The session when the fall-out check is reached moves as the session
    at the end of the collision loop. *)
Lemma before_fall_out_motion config s objs keys dt :
  motion (session (before_fall_out config s objs keys dt))
  = motion (session (check_collisions objs (tentative config s keys dt))).
Proof.
  unfold before_fall_out. cbn [session].
  rewrite update_player_state_motion.
  by destruct (handle_collectibles_motion
                 (check_collisions objs (tentative config s keys dt))) as [-> _].
Qed.

(** The fields of the session returned, from those at the fall-out check. *)
Lemma update_from_before_fall_out config s objs keys dt :
  let b := session (before_fall_out config s objs keys dt) in
  let s' := update_player_physics config s objs keys dt in
  is_on_ground s' = is_on_ground b
  /\ is_facing_right s' = is_facing_right b
  /\ player_state s' = player_state b
  /\ (player_velocity_x s' = player_velocity_x b \/ player_velocity_x s' = zero)
  /\ (player_velocity_y s' = player_velocity_y b \/ player_velocity_y s' = zero)
  /\ (is_on_ground s' = true -> player_velocity_y b = zero -> player_velocity_y s' = zero).
Proof.
  cbn zeta. unfold update_player_physics, commit_position.
  rewrite fall_out_cases. cbn zeta.
  destruct (_ >? _)%dec; [destruct (_ <=? 0)|];
    cbn [session is_on_ground is_facing_right player_state player_velocity_x
         player_velocity_y set_player_x set_player_y set_is_game_over
         set_lives_remaining set_player_velocity_x set_player_velocity_y];
    auto 10.
Qed.

End Loop.

(** X4.  The collision loop does something only for the objects that
    intersect the player's box and are solid or a collectible not yet
    collected.  All other objects can be taken out of the level without
    changing the session that a tick returns. *)
Theorem irrelevant_objects_ignored (config : GameConfig.t) (session : GameSession.t)
    (level_objects : list GameObject.t) (keys_pressed : gmap string bool)
    (delta_time : DeltaTime) :
  let box := player_box (tentative config session keys_pressed delta_time) in
  update_player_physics config session level_objects keys_pressed delta_time
  = update_player_physics config session
      (List.filter (Level.relevant box (collected_objects session)) level_objects)
      keys_pressed delta_time.
Proof.
  cbn zeta. unfold update_player_physics, before_fall_out.
  rewrite (Loop.check_collisions_filter level_objects).
  by rewrite Loop.tentative_collected.
Qed.

Module Final.
Import Level.

Lemma motion_fields a b :
  motion a = motion b ->
  player_velocity_x a = player_velocity_x b
  /\ player_velocity_y a = player_velocity_y b
  /\ is_facing_right a = is_facing_right b
  /\ is_on_ground a = is_on_ground b.
Proof. unfold motion. intros [= _ _ Hvx Hvy Hf Hg]. done. Qed.

Lemma jumping_keeps config j s :
  player_velocity_x (apply_jumping config j s) = player_velocity_x s
  /\ is_facing_right (apply_jumping config j s) = is_facing_right s.
Proof. unfold apply_jumping. by destruct (_ && _). Qed.

Lemma gravity_keeps config dt s :
  player_velocity_x (apply_gravity config dt s) = player_velocity_x s
  /\ is_facing_right (apply_gravity config dt s) = is_facing_right s.
Proof. unfold apply_gravity. by destruct (negb _). Qed.

(** The horizontal velocity and the facing of a tick are settled by
    lines 360-382. *)
Lemma tentative_horizontal config s keys dt :
  let h := apply_horizontal_movement config (Intent.move_left keys)
             (Intent.move_right keys) (dt_decimal dt) s in
  vx_after_input config s keys dt = player_velocity_x h
  /\ is_facing_right (GamePhysics.session (tentative config s keys dt))
     = is_facing_right h.
Proof.
  cbn zeta. unfold vx_after_input. rewrite Steps.tentative_unfold. cbn zeta.
  cbn [GamePhysics.session].
  rewrite !(proj1 (gravity_keeps _ _ _)), !(proj2 (gravity_keeps _ _ _)).
  by rewrite !(proj1 (jumping_keeps _ _ _)), !(proj2 (jumping_keeps _ _ _)).
Qed.

(** Off the ground after the jump step, gravity applies and caps. *)
Lemma vy_after_gravity_airborne config s keys dt :
  is_on_ground s = false \/ Intent.jump keys = true ->
  exists vy,
    vy_after_gravity config s keys dt
    = Decimal.min (vy + GameLevel.gravity (level s) * dt_decimal dt)%dec
        (GameConfig.max_velocity_y config).
Proof.
  intros Hair. unfold vy_after_gravity. rewrite Steps.tentative_unfold. cbn zeta.
  cbn [GamePhysics.session].
  set (s1 := apply_horizontal_movement config (Intent.move_left keys)
               (Intent.move_right keys) (dt_decimal dt) s).
  assert (Hg1 : is_on_ground s1 = is_on_ground s)
    by apply Steps.horizontal_on_ground.
  assert (Hl1 : level s1 = level s).
  { pose proof (Frame.apply_horizontal_movement_kept config (Intent.move_left keys)
                  (Intent.move_right keys) (dt_decimal dt) s) as Hk.
    fold s1 in Hk. unfold kept, untouched in Hk. congruence. }
  set (s2 := apply_jumping config (Intent.jump keys) s1).
  assert (Hs2 : is_on_ground s2 = false /\ level s2 = level s).
  { unfold s2, apply_jumping. rewrite Hg1.
    destruct (Intent.jump keys), (is_on_ground s) eqn:Hg; cbn [andb];
      cbn [is_on_ground level set_is_on_ground set_player_velocity_y];
      try (split; congruence).
    destruct Hair; congruence. }
  destruct Hs2 as [Hg2 Hl2].
  exists (player_velocity_y s2).
  unfold apply_gravity. rewrite Hg2. cbn [negb player_velocity_y set_player_velocity_y].
  by rewrite Hl2.
Qed.

(** The velocities returned are those of the first steps, or zero. *)
Lemma velocities config s objs keys dt :
  let s' := update_player_physics config s objs keys dt in
  (player_velocity_x s' = vx_after_input config s keys dt \/ player_velocity_x s' = zero)
  /\ (player_velocity_y s' = vy_after_gravity config s keys dt
      \/ player_velocity_y s' = zero).
Proof.
  cbn zeta.
  destruct (Loop.update_from_before_fall_out config s objs keys dt)
    as (_ & _ & _ & Hx & Hy & _). cbn zeta in Hx, Hy.
  destruct (motion_fields _ _ (Loop.before_fall_out_motion config s objs keys dt))
    as (Hbx & Hby & _ & _).
  rewrite Hbx in Hx. rewrite Hby in Hy. unfold check_collisions in Hx, Hy.
  pose proof (Loop.collision_loop_vx (player_box (tentative config s keys dt)) objs
                (loop_entry (tentative config s keys dt))) as Lx.
  pose proof (Loop.collision_loop_vy (player_box (tentative config s keys dt)) objs
                (loop_entry (tentative config s keys dt))) as Ly.
  unfold vx_after_input, vy_after_gravity.
  change (player_velocity_x (GamePhysics.session (loop_entry (tentative config s keys dt))))
    with (player_velocity_x (GamePhysics.session (tentative config s keys dt))) in Lx.
  change (player_velocity_y (GamePhysics.session (loop_entry (tentative config s keys dt))))
    with (player_velocity_y (GamePhysics.session (tentative config s keys dt))) in Ly.
  split.
  - destruct Hx as [Hx|Hx]; [|by right]. rewrite Hx. exact Lx.
  - destruct Hy as [Hy|Hy]; [|by right]. rewrite Hy. exact Ly.
Qed.

End Final.

(* --------------------------------------------------------------------- *)
(** *** Velocity caps, friction, facing, ground contact                   *)
(* --------------------------------------------------------------------- *)

(** X5.  With a horizontal key held the velocity returned respects the
    cap [max_velocity_x >= 0] on the side of the key: moving left it is
    at least [-max_velocity_x], moving right (left not held) it is at most
    [max_velocity_x]. *)
Theorem horizontal_speed_capped (config : GameConfig.t) (session : GameSession.t)
    (level_objects : list GameObject.t) (keys_pressed : gmap string bool)
    (delta_time : DeltaTime) :
  (dec 0 0 <= GameConfig.max_velocity_x config)%dec ->
  let session' := update_player_physics config session level_objects keys_pressed delta_time in
  (Intent.move_left keys_pressed = true ->
   (- GameConfig.max_velocity_x config <= player_velocity_x session')%dec)
  /\ (Intent.move_left keys_pressed = false -> Intent.move_right keys_pressed = true ->
      (player_velocity_x session' <= GameConfig.max_velocity_x config)%dec).
Proof.
  intros Hcap. cbn zeta.
  destruct (Final.velocities config session level_objects keys_pressed delta_time)
    as [Hx _]. cbn zeta in Hx.
  destruct (Final.tentative_horizontal config session keys_pressed delta_time)
    as [Hv _]. cbn zeta in Hv. rewrite Hv in Hx.
  split.
  - intros Hl. rewrite Hl in Hx. unfold apply_horizontal_movement in Hx.
    cbn [player_velocity_x set_is_facing_right set_player_velocity_x] in Hx.
    destruct Hx as [-> | ->]; [apply DecimalOrder.max_ge_r|].
    by apply DecimalOrder.neg_nonpos.
  - intros Hl Hr. rewrite Hl, Hr in Hx. unfold apply_horizontal_movement in Hx.
    cbn [player_velocity_x set_is_facing_right set_player_velocity_x] in Hx.
    destruct Hx as [-> | ->]; [apply DecimalFacts.min_le_r | done].
Qed.

(** Running right from the spawn for a frame stays under the cap 8.0. *)
Lemma horizontal_speed_capped_witness :
  (player_velocity_x
     (update_player_physics GameConfig.default fresh_session [main_ground]
        {[ "d" := true ]} dt_60fps)
   <= dec 80 (-1))%dec.
Proof.
  destruct (horizontal_speed_capped GameConfig.default fresh_session [main_ground]
              {[ "d" := true ]} dt_60fps) as [_ Hr].
  - vm_compute. reflexivity.
  - apply Hr; vm_compute; reflexivity.
Defined.

(** X6.  When the session is in the air, or jumps in this tick, the
    vertical velocity returned is at most [max_velocity_y] (taken
    [>= 0]): the fall speed is capped. *)
Theorem vertical_speed_capped (config : GameConfig.t) (session : GameSession.t)
    (level_objects : list GameObject.t) (keys_pressed : gmap string bool)
    (delta_time : DeltaTime) :
  (dec 0 0 <= GameConfig.max_velocity_y config)%dec ->
  is_on_ground session = false \/ Intent.jump keys_pressed = true ->
  (player_velocity_y
     (update_player_physics config session level_objects keys_pressed delta_time)
   <= GameConfig.max_velocity_y config)%dec.
Proof.
  intros Hcap Hair.
  destruct (Final.velocities config session level_objects keys_pressed delta_time)
    as [_ Hy]. cbn zeta in Hy.
  destruct (Final.vy_after_gravity_airborne config session keys_pressed delta_time Hair)
    as [vy Hvy].
  rewrite Hvy in Hy. destruct Hy as [-> | ->]; [apply DecimalFacts.min_le_r | done].
Qed.

(** A session already falling faster than the cap 20.0 is slowed to it. *)
Lemma vertical_speed_capped_witness :
  (player_velocity_y
     (update_player_physics GameConfig.default
        (set_player_velocity_y (dec 50 0) fresh_session) [main_ground] no_keys dt_60fps)
   <= dec 200 (-1))%dec.
Proof.
  apply (vertical_speed_capped GameConfig.default
           (set_player_velocity_y (dec 50 0) fresh_session) [main_ground] no_keys dt_60fps).
  - vm_compute. reflexivity.
  - left. reflexivity.
Defined.

(** X7.  Without a horizontal key the velocity returned never creeps: it
    is exactly [Decimal("0")] or at least 0.1 in absolute value. *)
Theorem no_creeping (config : GameConfig.t) (session : GameSession.t)
    (level_objects : list GameObject.t) (keys_pressed : gmap string bool)
    (delta_time : DeltaTime) :
  Intent.move_left keys_pressed = false ->
  Intent.move_right keys_pressed = false ->
  let vx := player_velocity_x
              (update_player_physics config session level_objects keys_pressed delta_time) in
  vx = dec 0 0 \/ (dec 1 (-1) <= Decimal.abs vx)%dec.
Proof.
  intros Hl Hr. cbn zeta.
  destruct (Final.velocities config session level_objects keys_pressed delta_time)
    as [Hx _]. cbn zeta in Hx.
  destruct Hx as [Hx|Hx]; [|by left]. rewrite Hx.
  destruct (Final.tentative_horizontal config session keys_pressed delta_time)
    as [Hv _]. cbn zeta in Hv. rewrite Hv, Hl, Hr.
  unfold apply_horizontal_movement.
  destruct (is_on_ground session); cbn [player_velocity_x set_player_velocity_x];
    destruct (Decimal.ltb (Decimal.abs _) slow) eqn:Hslow;
    cbn [player_velocity_x set_player_velocity_x];
    solve [by left | right; by apply DecimalFacts.not_ltb_le].
Qed.

(** Sliding at 0.11 on the ground: 0.11 * 0.8 is below 0.1, so the
    player stops. *)
Lemma no_creeping_witness :
  player_velocity_x
    (update_player_physics GameConfig.default
       (set_player_velocity_x (dec 11 (-2)) sliding_session) [main_ground]
       no_keys dt_60fps) = dec 0 0
  \/ (dec 1 (-1)
      <= Decimal.abs
           (player_velocity_x
              (update_player_physics GameConfig.default
                 (set_player_velocity_x (dec 11 (-2)) sliding_session) [main_ground]
                 no_keys dt_60fps)))%dec.
Proof.
  apply (no_creeping GameConfig.default
           (set_player_velocity_x (dec 11 (-2)) sliding_session) [main_ground]
           no_keys dt_60fps); reflexivity.
Defined.

(** X8.  The facing follows the keys and nothing else: left held turns
    the player left, right held (without left) turns it right, and
    without a horizontal key the facing is returned as given, whatever
    the collisions or a respawn do. *)
Theorem facing_follows_keys (config : GameConfig.t) (session : GameSession.t)
    (level_objects : list GameObject.t) (keys_pressed : gmap string bool)
    (delta_time : DeltaTime) :
  is_facing_right
    (update_player_physics config session level_objects keys_pressed delta_time)
  = if Intent.move_left keys_pressed then false
    else if Intent.move_right keys_pressed then true
    else is_facing_right session.
Proof.
  destruct (Loop.update_from_before_fall_out config session level_objects
              keys_pressed delta_time) as (_ & Hf & _). cbn zeta in Hf. rewrite Hf.
  destruct (Final.motion_fields _ _
              (Loop.before_fall_out_motion config session level_objects
                 keys_pressed delta_time)) as (_ & _ & -> & _).
  unfold check_collisions. rewrite Loop.collision_loop_facing.
  change (is_facing_right (GamePhysics.session (loop_entry ?st)))
    with (is_facing_right (GamePhysics.session st)).
  destruct (Final.tentative_horizontal config session keys_pressed delta_time)
    as [_ ->].
  unfold apply_horizontal_movement.
  destruct (Intent.move_left keys_pressed); [done|].
  destruct (Intent.move_right keys_pressed); [done|].
  destruct (is_on_ground session); cbn [player_velocity_x set_player_velocity_x];
    by destruct (_ <? _)%dec.
Qed.

(** X9.  A session is returned on the ground only by landing in that
    tick: then its vertical velocity is exactly [Decimal("0")], and the
    level has a solid object that intersects the player's box and is not
    queued as a new collectible.  In particular a level without solid
    objects never grounds the player. *)
Theorem grounded_by_landing (config : GameConfig.t) (session : GameSession.t)
    (level_objects : list GameObject.t) (keys_pressed : gmap string bool)
    (delta_time : DeltaTime) :
  let session' := update_player_physics config session level_objects keys_pressed delta_time in
  let box := player_box (tentative config session keys_pressed delta_time) in
  is_on_ground session' = true ->
  player_velocity_y session' = dec 0 0
  /\ exists obj, obj ∈ level_objects
       /\ GameObject.is_solid obj = true
       /\ CollisionBox.intersects box (obj_box obj) = true
       /\ Level.resolved box (collected_objects session) obj = true.
Proof.
  cbn zeta. intros Hg.
  destruct (Loop.update_from_before_fall_out config session level_objects
              keys_pressed delta_time) as (Hgb & _ & _ & _ & _ & Hrest).
  cbn zeta in Hgb, Hrest.
  destruct (Final.motion_fields _ _
              (Loop.before_fall_out_motion config session level_objects
                 keys_pressed delta_time)) as (_ & Hvy & _ & Hgc).
  rewrite Hgb, Hgc in Hg. unfold check_collisions in Hg, Hvy.
  set (st := tentative config session keys_pressed delta_time) in *.
  split.
  - apply Hrest; [by rewrite Hgb, Hgc|]. rewrite Hvy.
    apply Loop.collision_loop_grounded; [|done].
    unfold loop_entry. cbn [GamePhysics.session is_on_ground set_is_on_ground]. done.
  - destruct (Loop.collision_loop_ground_cause _ _ _ Hg) as [Hfalse|(obj & Hin & Hres)].
    + unfold loop_entry in Hfalse.
      cbn [GamePhysics.session is_on_ground set_is_on_ground] in Hfalse. done.
    + exists obj. split; [done|].
      change (collected_objects (GamePhysics.session (loop_entry st)))
        with (collected_objects (GamePhysics.session st)) in Hres.
      unfold st in Hres. rewrite Loop.tentative_collected in Hres.
      pose proof Hres as Hres'. unfold Level.resolved in Hres'.
      apply andb_true_iff in Hres' as [Hres' Hsolid].
      apply andb_true_iff in Hres' as [Hbox _]. done.
Qed.

(** Landing from the spawn on a platform just below it. *)
Lemma grounded_by_landing_witness :
  player_velocity_y
    (update_player_physics GameConfig.default fresh_session
       [GameObject.mk 30 1 PLATFORM (dec 0 0) (dec 432 0) (dec 800 0) (dec 50 0)
          true false 0] no_keys dt_60fps) = dec 0 0.
Proof.
  destruct (grounded_by_landing GameConfig.default fresh_session
              [GameObject.mk 30 1 PLATFORM (dec 0 0) (dec 432 0) (dec 800 0) (dec 50 0)
                 true false 0] no_keys dt_60fps) as [Hvy _].
  - vm_compute. reflexivity.
  - exact Hvy.
Defined.

(** X10.  The state returned is derived, never [DEAD], and agrees with
    the ground contact returned: [IDLE] or [RUNNING] on the ground,
    [JUMPING] or [FALLING] in the air. *)
Theorem player_state_derived (config : GameConfig.t) (session : GameSession.t)
    (level_objects : list GameObject.t) (keys_pressed : gmap string bool)
    (delta_time : DeltaTime) :
  let session' := update_player_physics config session level_objects keys_pressed delta_time in
  player_state session' <> DEAD
  /\ (if is_on_ground session'
      then player_state session' = IDLE \/ player_state session' = RUNNING
      else player_state session' = JUMPING \/ player_state session' = FALLING).
Proof.
  cbn zeta.
  destruct (Loop.update_from_before_fall_out config session level_objects
              keys_pressed delta_time) as (Hg & _ & Hs & _). cbn zeta in Hg, Hs.
  rewrite Hg, Hs. unfold before_fall_out. cbn [GamePhysics.session].
  set (s := GamePhysics.session (handle_collectibles _)).
  unfold update_player_state.
  destruct (is_on_ground s) eqn:Hgs.
  - destruct (_ >? _)%dec; cbn [player_state is_on_ground set_player_state];
      rewrite Hgs; split; auto; discriminate.
  - destruct (_ <? _)%dec; cbn [player_state is_on_ground set_player_state];
      rewrite Hgs; split; auto; discriminate.
Qed.

(* --------------------------------------------------------------------- *)
(** *** Lives, coins and score along a run of frames                      *)
(* --------------------------------------------------------------------- *)

Module Run.
Import Level.

(** One tick: a life is taken exactly by a fall below the level, and the
    game is over exactly when that leaves none. *)
Lemma tick_lives config s objs keys dt :
  let fell := (new_y (before_fall_out config s objs keys dt)
               >? Decimal.of_Z (GameLevel.height (level s)))%dec in
  let s' := update_player_physics config s objs keys dt in
  lives_remaining s' = (if fell then lives_remaining s - 1 else lives_remaining s)
  /\ is_game_over s' = is_game_over s || (fell && (lives_remaining s - 1 <=? 0)).
Proof.
  cbn zeta.
  destruct (Frame.before_fall_out_lives config s objs keys dt) as [Hl Hg].
  pose proof (Frame.before_fall_out_level config s objs keys dt) as Hlev.
  unfold update_player_physics, commit_position.
  cbn [lives_remaining is_game_over set_player_y set_player_x].
  rewrite fall_out_cases. cbn zeta. rewrite Hlev, Hl.
  destruct (_ >? _)%dec; [destruct (_ <=? 0)|];
    cbn [GamePhysics.session is_game_over lives_remaining
         set_is_game_over set_lives_remaining set_player_velocity_x
         set_player_velocity_y andb]; rewrite ?Hg, ?Hl;
    by rewrite ?orb_true_r, ?orb_false_r.
Qed.

Lemma run_frames_untouched config objs frames : forall s,
  untouched (run_frames config objs frames s) = untouched s.
Proof.
  induction frames as [|fr frames IH]; intros s; [done|].
  rewrite Session.run_frames_cons, IH.
  apply Frame.update_player_physics_untouched.
Qed.

Lemma tick_lives_invariant config s objs keys dt :
  let s' := update_player_physics config s objs keys dt in
  lives_remaining s' <= lives_remaining s
  /\ ((is_game_over s = true -> lives_remaining s <= 0) ->
      is_game_over s' = true -> lives_remaining s' <= 0).
Proof.
  cbn zeta. destruct (tick_lives config s objs keys dt) as [Hl Hg].
  cbn zeta in Hl, Hg. rewrite Hl, Hg.
  destruct (_ >? _)%dec; cbn [andb].
  - split; [lia|]. intros Hinv.
    destruct (Z.leb_spec (lives_remaining s - 1) 0) as [Hle|Hgt]; [lia|].
    rewrite orb_false_r. intros Hover. specialize (Hinv Hover). lia.
  - split; [lia|]. by rewrite orb_false_r.
Qed.

(** Filtering keeps ids apart. *)
Lemma NoDup_ids_filter (f : GameObject.t -> bool) (objs : list GameObject.t) :
  NoDup (GameObject.id <$> objs) -> NoDup (GameObject.id <$> List.filter f objs).
Proof.
  induction objs as [|o objs IH]; [done|].
  rewrite fmap_cons. intros [Hnew Hnd]%NoDup_cons. cbn [List.filter].
  destruct (f o); [|by apply IH].
  rewrite fmap_cons. apply NoDup_cons. split; [|by apply IH].
  intros (o' & Hid & Hin)%list_elem_of_fmap. apply Hnew.
  apply list_elem_of_fmap. exists o'. split; [done|].
  apply list_elem_of_In. apply list_elem_of_In, filter_In in Hin. tauto.
Qed.

Lemma sum_points_uniform (v : Z) (got : list GameObject.t) :
  (forall obj, obj ∈ got -> GameObject.points_value obj = v) ->
  sum_points got = v * Z.of_nat (length got).
Proof.
  induction got as [|o got IH]; intros Hv; [unfold sum_points; simpl; lia|].
  change (sum_points (o :: got)) with (GameObject.points_value o + sum_points got).
  rewrite IH by (intros obj Hobj; apply Hv; by right).
  rewrite (Hv o) by left. cbn [length]. lia.
Qed.

End Run.

(** X11.  Along any run of frames the engine never gives a life back:
    [lives_remaining] does not grow (the extra-life score of the config
    is never consulted).  And "game over means no life left" is an
    invariant: if it holds of the session given, it holds of the session
    returned. *)
Theorem lives_never_grow (config : GameConfig.t) (level_objects : list GameObject.t)
    (frames : list (gmap string bool * DeltaTime)) (session : GameSession.t) :
  let session' := run_frames config level_objects frames session in
  lives_remaining session' <= lives_remaining session
  /\ ((is_game_over session = true -> lives_remaining session <= 0) ->
      is_game_over session' = true -> lives_remaining session' <= 0).
Proof.
  cbn zeta. revert session.
  induction frames as [|fr frames IH]; intros session.
  { change (run_frames config level_objects [] session) with session.
    split; [lia | auto]. }
  rewrite Session.run_frames_cons.
  destruct (Run.tick_lives_invariant config session level_objects fr.1 fr.2) as [H1 H2].
  cbn zeta in H1, H2.
  destruct (IH (update_player_physics config session level_objects fr.1 fr.2))
    as [H3 H4].
  split; [lia|]. intros Hinv. apply H4. by apply H2.
Qed.

(** Three frames of a session that starts below the level with its
    last life. *)
Lemma lives_never_grow_witness :
  lives_remaining
    (run_frames GameConfig.default [main_ground]
       (replicate 3 (no_keys, dt_60fps)) (fallen_session 1)) <= 0.
Proof.
  destruct (lives_never_grow GameConfig.default [main_ground]
              (replicate 3 (no_keys, dt_60fps)) (fallen_session 1)) as [_ Hinv].
  apply Hinv.
  - vm_compute. discriminate.
  - vm_compute. reflexivity.
Defined.

(** X12.  The credit bookkeeping stays consistent along any run of
    frames: if [collected_objects] has no repeated id and
    [coins_collected] is its length, the same holds of the session
    returned.  It holds of every session started fresh. *)
Theorem credit_stays_consistent (config : GameConfig.t)
    (level_objects : list GameObject.t)
    (frames : list (gmap string bool * DeltaTime)) (session : GameSession.t) :
  Level.credit_consistent session ->
  Level.credit_consistent (run_frames config level_objects frames session).
Proof.
  unfold Level.credit_consistent. intros [Hnd Hlen].
  destruct (Session.run_frames_credit config level_objects frames session)
    as (got & Hc & Hndg & Hs & Hn & _).
  rewrite Hc, Hn, length_app, length_fmap. split; [|lia].
  apply NoDup_app. split; [done|]. split; [|done].
  intros i Hi (obj & -> & Hobj)%list_elem_of_fmap.
  by destruct (Hs _ Hobj) as [Hnew _].
Qed.

Lemma credit_stays_consistent_witness :
  Level.credit_consistent
    (run_frames GameConfig.default world_1_1_objects
       (replicate 5 ({[ "d" := true ]}, dt_60fps)) fresh_session).
Proof.
  apply credit_stays_consistent. split; [apply NoDup_nil_2 | reflexivity].
Defined.

(** X13.  On a level whose collectibles are all worth [v] points, the
    score gained along any run of frames is [v] times the coins gained:
    with the 100-point coins of World 1-1, a fresh session always has
    [current_score = 100 * coins_collected]. *)
Theorem score_tracks_coins (config : GameConfig.t) (level_objects : list GameObject.t)
    (frames : list (gmap string bool * DeltaTime)) (session : GameSession.t) (v : Z) :
  (forall obj, obj ∈ level_objects -> GameObject.is_collectible obj = true ->
               GameObject.points_value obj = v) ->
  let session' := run_frames config level_objects frames session in
  current_score session' - current_score session
  = v * (coins_collected session' - coins_collected session).
Proof.
  intros Hv. cbn zeta.
  destruct (Session.run_frames_credit config level_objects frames session)
    as (got & _ & _ & Hs & Hn & Hp).
  rewrite Hn, Hp, (Run.sum_points_uniform v got); [lia|].
  intros obj Hobj. destruct (Hs _ Hobj) as (_ & Hin & Hcol). by apply Hv.
Qed.

Lemma score_tracks_coins_witness :
  current_score
    (run_frames GameConfig.default world_1_1_objects
       (replicate 5 (no_keys, dt_60fps)) at_first_coin)
  - current_score at_first_coin
  = 100 * (coins_collected
             (run_frames GameConfig.default world_1_1_objects
                (replicate 5 (no_keys, dt_60fps)) at_first_coin)
           - coins_collected at_first_coin).
Proof.
  apply score_tracks_coins.
  intros obj Hobj Hcol. unfold world_1_1_objects in Hobj.
  repeat (apply elem_of_cons in Hobj as [-> | Hobj]; [first [reflexivity | discriminate Hcol]|]).
  by apply elem_of_nil in Hobj.
Defined.

(* --------------------------------------------------------------------- *)
(** *** The win check of the frame loop                                   *)
(* --------------------------------------------------------------------- *)

Module Win.
Import Level.

Lemma coins_of_spec objs obj :
  obj ∈ coins_of objs <-> obj ∈ objs /\ is_coin obj = true.
Proof. unfold coins_of. rewrite !list_elem_of_In. apply filter_In. Qed.

(** What a fresh session has collected on a coin level: coins of the
    level, each once. *)
Lemma collected_coins config objs frames s :
  coin_level objs -> collected_objects s = [] -> coins_collected s = 0 ->
  exists got : list GameObject.t,
    collected_objects (run_frames config objs frames s) = GameObject.id <$> got
    /\ coins_collected (run_frames config objs frames s) = Z.of_nat (length got)
    /\ got ⊆+ coins_of objs.
Proof.
  intros [Hids Hcoin] Hc0 Hn0.
  destruct (Session.run_frames_credit config objs frames s)
    as (got & Hc & Hnd & Hs & Hn & _).
  exists got. rewrite Hc, Hn, Hc0, Hn0. split; [done|]. split; [lia|].
  apply NoDup_submseteq; [by apply NoDup_fmap_1 in Hnd|].
  intros obj Hobj. destruct (Hs _ Hobj) as (_ & Hin & Hcol).
  apply coins_of_spec. split; [done|]. by rewrite <- Hcoin.
Qed.

End Win.

(** X14.  The win check is right on a level whose collectibles are its
    coins, with ids that tell the objects apart (World 1-1 is one).  For
    a session started fresh and run for any frames, [coins_collected]
    never exceeds the number of coins, and the check of the frame loop
    completes the session exactly when the id of every coin of the level
    is in [collected_objects]. *)
Theorem win_when_all_coins_collected (config : GameConfig.t)
    (level_objects : list GameObject.t)
    (frames : list (gmap string bool * DeltaTime)) (session : GameSession.t) :
  Level.coin_level level_objects ->
  collected_objects session = [] -> coins_collected session = 0 ->
  is_completed session = false ->
  let session' := run_frames config level_objects frames session in
  coins_collected session' <= Z.of_nat (length (Level.coins_of level_objects))
  /\ (is_completed (check_win_condition session' level_objects) = true <->
      forall obj, obj ∈ level_objects -> is_coin obj = true ->
                  GameObject.id obj ∈ collected_objects session').
Proof.
  intros Hlevel Hc0 Hn0 Hdone. cbn zeta.
  destruct (Win.collected_coins config level_objects frames session Hlevel Hc0 Hn0)
    as (got & Hc & Hn & Hsub).
  pose proof (submseteq_length _ _ Hsub) as Hlen.
  split; [lia|].
  assert (Hdone' : is_completed (run_frames config level_objects frames session) = false).
  { pose proof (Run.run_frames_untouched config level_objects frames session) as Hu.
    unfold untouched in Hu. congruence. }
  unfold check_win_condition. fold (Level.coins_of level_objects).
  destruct (Z.geb_spec (coins_collected (run_frames config level_objects frames session))
              (Z.of_nat (length (Level.coins_of level_objects)))) as [Hge|Hlt].
  - cbn [is_completed set_is_completed]. split; [|done]. intros _ obj Hin Hcoin.
    assert (Hperm : got ≡ₚ Level.coins_of level_objects)
      by (apply submseteq_length_Permutation; [done | lia]).
    rewrite Hc. apply list_elem_of_fmap. exists obj. split; [done|].
    rewrite Hperm. by apply Win.coins_of_spec.
  - rewrite Hdone'. split; [done|]. intros Hall. exfalso.
    destruct Hlevel as [Hids _].
    assert (Hsub' : (GameObject.id <$> Level.coins_of level_objects)
                    ⊆+ (GameObject.id <$> got)).
    { apply NoDup_submseteq; [by apply Run.NoDup_ids_filter|].
      intros i (obj & -> & Hobj)%list_elem_of_fmap.
      apply Win.coins_of_spec in Hobj as [Hin Hcoin].
      rewrite <- Hc. by apply Hall. }
    apply submseteq_length in Hsub'. rewrite !length_fmap in Hsub'. lia.
Qed.

(** World 1-1 is a coin level; from the spawn, five frames to the right
    collect at most its 8 coins. *)
Lemma win_when_all_coins_collected_witness :
  coins_collected
    (run_frames GameConfig.default world_1_1_objects
       (replicate 5 ({[ "d" := true ]}, dt_60fps)) fresh_session)
  <= Z.of_nat (length (Level.coins_of world_1_1_objects)).
Proof.
  destruct (win_when_all_coins_collected GameConfig.default world_1_1_objects
              (replicate 5 ({[ "d" := true ]}, dt_60fps)) fresh_session) as [Hle _].
  - split.
    + apply (bool_decide_unpack _). vm_compute. exact I.
    + intros obj Hobj. unfold world_1_1_objects in Hobj.
      repeat (apply elem_of_cons in Hobj as [-> | Hobj]; [reflexivity|]).
      by apply elem_of_nil in Hobj.
  - reflexivity.
  - reflexivity.
  - reflexivity.
  - exact Hle.
Defined.

(** World 1-1 has 8 coins and no object that is solid and collectible. *)
Example world_1_1_shape :
  length (Level.coins_of world_1_1_objects) = 8%nat
  /\ forallb (fun obj => negb (GameObject.is_solid obj && GameObject.is_collectible obj))
       world_1_1_objects = true.
Proof. vm_compute. done. Qed.

(* --------------------------------------------------------------------- *)
(** *** The frame loop                                                    *)
(* --------------------------------------------------------------------- *)

Module LoopFacts.
Import MarioGame.

Lemma game_loop_paused g kr dt :
  game_loop_running g = false -> game_loop g kr dt = g.
Proof. unfold game_loop. by intros ->. Qed.

Lemma game_loop_no_config g kr dt :
  current_config g = None -> game_loop g kr dt = g.
Proof.
  unfold game_loop. intros ->.
  destruct (game_loop_running g); [|done]. by destruct (current_session g).
Qed.

Lemma run_loop_fixed g frames :
  (forall kr dt, game_loop g kr dt = g) -> run_loop g frames = g.
Proof.
  intros Hfix. unfold run_loop.
  induction frames as [|fr frames IH]; [done|].
  cbn [fold_left]. by rewrite Hfix.
Qed.

End LoopFacts.

(** X15.  The frame loop stops itself.  After a frame that received the
    keys, if the session it holds is game over, or has as many coins as
    the level (the frame marked it completed), then every later call of
    the loop, whatever keys and frame times it gets, leaves the game as
    it is: the engine is not called on that session again until the game
    is resumed or restarted.  When the game has a config the loop has
    switched [game_loop_running] off. *)
Theorem game_loop_stops (g : MarioGame.t) (keys_result : gmap string bool)
    (delta_time : DeltaTime)
    (frames : list (option (gmap string bool) * DeltaTime))
    (session' : GameSession.t) :
  let g' := MarioGame.game_loop g (Some keys_result) delta_time in
  MarioGame.current_session g' = Some session' ->
  is_game_over session' = true
  \/ coins_collected session'
     >= Z.of_nat (length (List.filter is_coin (MarioGame.level_objects g'))) ->
  MarioGame.run_loop g' frames = g'
  /\ (MarioGame.current_config g <> None -> MarioGame.game_loop_running g' = false).
Proof.
  cbn zeta. intros Hs Hend.
  destruct (MarioGame.game_loop_running g) eqn:Hrun.
  2:{ rewrite (LoopFacts.game_loop_paused g) in * by done.
      split; [|done]. apply LoopFacts.run_loop_fixed. intros kr dt.
      by apply LoopFacts.game_loop_paused. }
  destruct (MarioGame.current_config g) as [config|] eqn:Hcfg.
  2:{ rewrite (LoopFacts.game_loop_no_config g) in * by done.
      split; [|done]. apply LoopFacts.run_loop_fixed. intros kr dt.
      by apply LoopFacts.game_loop_no_config. }
  destruct (MarioGame.current_session g) as [s|] eqn:Hses.
  2:{ unfold MarioGame.game_loop in Hs. rewrite Hrun, Hses in Hs. congruence. }
  assert (Hstop : MarioGame.game_loop_running
                    (MarioGame.game_loop g (Some keys_result) delta_time) = false).
  { unfold MarioGame.game_loop in *. rewrite Hrun, Hses, Hcfg in *.
    destruct (coins_collected _ >=? _) eqn:Hwin;
      cbn [MarioGame.current_session MarioGame.level_objects
           MarioGame.game_loop_running] in *;
      injection Hs as <-; cbn [is_game_over coins_collected set_is_completed] in *.
    - by destruct (is_game_over _).
    - destruct (is_game_over _) eqn:Hover; [done|].
      destruct Hend as [Hend|Hend]; [done|].
      rewrite Z.geb_leb in Hwin. apply Z.leb_gt in Hwin. lia. }
  split; [|done]. apply LoopFacts.run_loop_fixed. intros kr dt.
  by apply LoopFacts.game_loop_paused.
Qed.

(** The frame of World 1-1 in which the last life is lost, then two more
    timer calls with the right arrow held: nothing moves any more. *)
Lemma game_loop_stops_witness :
  let g := MarioGame.mk (Some (fallen_session 1)) (Some GameConfig.default)
             world_1_1_objects ∅ true in
  MarioGame.run_loop (MarioGame.game_loop g (Some no_keys) dt_60fps)
    [(Some {[ "ArrowRight" := true ]}, dt_60fps);
     (Some {[ "ArrowRight" := true ]}, dt_60fps)]
  = MarioGame.game_loop g (Some no_keys) dt_60fps.
Proof.
  cbn zeta.
  destruct (game_loop_stops
              (MarioGame.mk (Some (fallen_session 1)) (Some GameConfig.default)
                 world_1_1_objects ∅ true)
              no_keys dt_60fps
              [(Some {[ "ArrowRight" := true ]}, dt_60fps);
               (Some {[ "ArrowRight" := true ]}, dt_60fps)]
              (update_player_physics GameConfig.default (fallen_session 1)
                 world_1_1_objects no_keys dt_60fps)) as [Hfix _].
  - vm_compute. reflexivity.
  - left. vm_compute. reflexivity.
  - exact Hfix.
Defined.

(* --------------------------------------------------------------------- *)
(** *** Landing                                                           *)
(* --------------------------------------------------------------------- *)

(** X16.  Landing on a platform.  When the only object that matters in
    a tick is one solid object that the loop resolves, the overlap is not
    smaller on the x axis, the player moves down ([vy > 0] after gravity)
    and the top of the object minus 32 is not below the level, the tick
    returns the player standing on it: [is_on_ground = true],
    [vy = Decimal("0")], [player_y] the object's top minus 32, the state
    [IDLE] or [RUNNING], and no life lost. *)
Theorem lands_on_platform (config : GameConfig.t) (session : GameSession.t)
    (level_objects : list GameObject.t) (keys_pressed : gmap string bool)
    (delta_time : DeltaTime) (obj : GameObject.t) :
  let st := tentative config session keys_pressed delta_time in
  let box := player_box st in
  let top := (GameObject.y_position obj - dec 32 0)%dec in
  List.filter (Level.relevant box (collected_objects session)) level_objects = [obj] ->
  Level.resolved box (collected_objects session) obj = true ->
  ((CollisionBox.get_overlap box (obj_box obj)).1
   <? (CollisionBox.get_overlap box (obj_box obj)).2)%dec = false ->
  (Level.vy_after_gravity config session keys_pressed delta_time > dec 0 0)%dec ->
  (top >? Decimal.of_Z (GameLevel.height (level session)))%dec = false ->
  let session' := update_player_physics config session level_objects keys_pressed delta_time in
  is_on_ground session' = true
  /\ player_velocity_y session' = dec 0 0
  /\ player_y session' = top
  /\ (player_state session' = IDLE \/ player_state session' = RUNNING)
  /\ lives_remaining session' = lives_remaining session.
Proof.
  cbn zeta. intros Honly Hres Haxis Hdown Htop.
  set (st := tentative config session keys_pressed delta_time) in *.
  assert (Hcol : collected_objects (GamePhysics.session st) = collected_objects session)
    by apply Loop.tentative_collected.
  assert (Hlev : level (GamePhysics.session st) = level session).
  { pose proof (Frame.tentative_kept config session keys_pressed delta_time) as Hk.
    fold st in Hk. unfold kept, untouched in Hk. congruence. }
  unfold Level.resolved in Hres.
  apply andb_true_iff in Hres as [Hres Hsolid].
  apply andb_true_iff in Hres as [Hbox Hnq]. apply negb_true_iff in Hnq.
  assert (Hloop : check_collisions level_objects st
                  = mkLocals (new_x st) (GameObject.y_position obj - dec 32 0)%dec
                      (set_is_on_ground true
                         (set_player_velocity_y (dec 0 0)
                            (set_is_on_ground false (GamePhysics.session st))))
                      []).
  { rewrite Loop.check_collisions_filter, Hcol, Honly.
    unfold check_collisions. cbn [fold_left]. unfold collide, loop_entry.
    cbn [GamePhysics.session new_x new_y collectible_objects collected_objects
         player_velocity_y set_is_on_ground].
    rewrite Hbox, Hcol, Hnq, Hsolid.
    destruct (CollisionBox.get_overlap (player_box st) (obj_box obj)) as [ox oy].
    cbn [fst snd] in Haxis. rewrite Haxis.
    unfold Level.vy_after_gravity, Decimal.gt in Hdown. fold st in Hdown.
    fold zero in Hdown. by rewrite Hdown. }
  unfold update_player_physics, before_fall_out. fold st. rewrite Hloop.
  unfold handle_collectibles.
  cbn [GamePhysics.session new_x new_y collectible_objects fold_left].
  unfold update_player_state.
  cbn [is_on_ground set_is_on_ground set_player_velocity_y].
  unfold commit_position. rewrite fall_out_cases. cbn zeta.
  destruct (Decimal.gtb (Decimal.abs _) slow);
    cbn [GamePhysics.session new_x new_y collectible_objects level
         set_player_state set_is_on_ground set_player_velocity_y];
    rewrite Hlev, Htop;
    cbn [GamePhysics.session new_x new_y is_on_ground player_velocity_y player_y
         player_state lives_remaining set_player_x set_player_y set_player_state
         set_is_on_ground set_player_velocity_y];
    repeat split; auto;
    pose proof (Frame.tentative_kept config session keys_pressed delta_time) as Hk;
    fold st in Hk; unfold kept in Hk; congruence.
Qed.

(** Falling from the spawn of World 1-1 onto a platform put just below
    it, among the objects of the level. *)
Lemma lands_on_platform_witness :
  let plat := GameObject.mk 30 1 PLATFORM (dec 0 0) (dec 432 0) (dec 800 0)
                (dec 50 0) true false 0 in
  player_y (update_player_physics GameConfig.default fresh_session
              (world_1_1_objects ++ [plat]) no_keys dt_60fps)
  = dec 400 0.
Proof.
  cbn zeta.
  destruct (lands_on_platform GameConfig.default fresh_session
              (world_1_1_objects
               ++ [GameObject.mk 30 1 PLATFORM (dec 0 0) (dec 432 0) (dec 800 0)
                     (dec 50 0) true false 0])
              no_keys dt_60fps
              (GameObject.mk 30 1 PLATFORM (dec 0 0) (dec 432 0) (dec 800 0)
                 (dec 50 0) true false 0)) as (_ & _ & Hy & _);
    [vm_compute; reflexivity .. |].
  exact Hy.
Defined.

(** X17.  A level without coins is won at once.  In a running game
    whose level has no object of type coin, with a session whose
    [coins_collected] is not negative, the first frame that receives the
    keys marks the session completed and stops the loop, whatever the
    player does. *)
Theorem coinless_level_won_at_once (g : MarioGame.t) (session : GameSession.t)
    (config : GameConfig.t) (keys_result : gmap string bool) (delta_time : DeltaTime) :
  MarioGame.game_loop_running g = true ->
  MarioGame.current_session g = Some session ->
  MarioGame.current_config g = Some config ->
  List.filter is_coin (MarioGame.level_objects g) = [] ->
  0 <= coins_collected session ->
  let g' := MarioGame.game_loop g (Some keys_result) delta_time in
  MarioGame.game_loop_running g' = false
  /\ exists session', MarioGame.current_session g' = Some session'
                      /\ is_completed session' = true.
Proof.
  intros Hrun Hses Hcfg Hcoins Hpos. cbn zeta.
  unfold MarioGame.game_loop. rewrite Hrun, Hses, Hcfg, Hcoins.
  set (keys := if MarioGame.truthy keys_result then keys_result
               else MarioGame.keys_pressed g).
  destruct (Credit.tick_credit config session (MarioGame.level_objects g) keys
              delta_time) as (_ & Hn & _). cbn zeta in Hn.
  destruct (Z.geb_spec
              (coins_collected
                 (update_player_physics config session (MarioGame.level_objects g)
                    keys delta_time)) (Z.of_nat (length (@nil GameObject.t))))
    as [Hge|Hlt].
  - cbn [is_game_over set_is_completed MarioGame.game_loop_running
         MarioGame.current_session].
    split; [by destruct (is_game_over _)|].
    eexists. split; [reflexivity|]. reflexivity.
  - cbn [length] in Hlt. lia.
Qed.

(** A game on a level made of the main ground alone. *)
Lemma coinless_level_won_at_once_witness :
  MarioGame.game_loop_running
    (MarioGame.game_loop
       (MarioGame.mk (Some fresh_session) (Some GameConfig.default) [main_ground] ∅ true)
       (Some no_keys) dt_60fps) = false.
Proof.
  destruct (coinless_level_won_at_once
              (MarioGame.mk (Some fresh_session) (Some GameConfig.default)
                 [main_ground] ∅ true)
              fresh_session GameConfig.default no_keys dt_60fps) as [Hstop _];
    [reflexivity .. | |exact Hstop].
  vm_compute. discriminate.
Defined.
